(** * uia_clicker: the UI Automation auto-accept watcher

    A shallow embedding of [uia_clicker.py] (the invocation cascade
    [click_button] and the polling loop of [main]) together with the
    properties of the cascade and of the watch loop.

    The accessibility backend ([uiautomation]) is external to the program.
    It is modelled as an interface ([Backend]) over an abstract world state:
    every call may change the world, may return a value and may raise.  The
    program is written in a small monad that threads the world, propagates
    exceptions the way Python does, and records every backend call, every
    [time.sleep] and every printed line in a trace of events, so that the
    properties about "which calls happen, in which order, how many times"
    are statements about that trace.

    Of the Python runtime the model keeps what depends on the inputs of
    the program: [time.sleep] refuses a [--delay] that is too large
    ([OverflowError]; an infinite delay behaves the same, and a delay that
    is not a number fails the test [click_delay > 0] like a delay that is
    not positive), and [print] refuses a control name or an exception text
    that the standard output cannot encode.  Delays are rationals.  A
    signal delivered while the program sleeps or prints, and a standard
    output that fails on plain text, are outside the model. *)

From Stdlib Require Import List String Bool Arith QArith Lia.
Import ListNotations.

(** ** Exceptions and results *)

(** Python exceptions, as far as the program distinguishes them:
    [except Exception] catches every instance of [Exception] (carried here
    with the text [str(e)] that the handlers interpolate in their log line)
    and lets [KeyboardInterrupt], which is not an [Exception], through. *)
Inductive exn : Type :=
| Exception (msg : string)
| KeyboardInterrupt.

Inductive result (A : Type) : Type :=
| Ok (a : A)
| Raise (e : exn).

Arguments Ok {A} a.
Arguments Raise {A} e.

(** ** Handles *)

(** Opaque references handed out by the backend. *)
Inductive Window : Type := WindowHandle (id : nat).
Inductive Control : Type := ControlHandle (id : nat).
Inductive Legacy : Type := LegacyPattern (id : nat).

Definition Window_eqb (a b : Window) : bool :=
  match a, b with WindowHandle x, WindowHandle y => Nat.eqb x y end.

Definition Control_eqb (a b : Control) : bool :=
  match a, b with ControlHandle x, ControlHandle y => Nat.eqb x y end.

(** ** Events *)

(** One event per backend call (recorded whether the call returns or
    raises), per [time.sleep] and per line written by [flush_print] (the
    [[HH:MM:SS]] prefix that [flush_print] adds is left out).  The reads
    whose answer a property depends on carry that answer. *)
Inductive event : Type :=
| EvGetChildren
| EvClassName (w : Window) (r : result string)
| EvButtonControl (w : Window) (searchDepth : nat) (RegexName : string)
| EvExists (c : Control) (r : result bool)
| EvName (c : Control)
| EvIsEnabled (c : Control) (r : result bool)
| EvInvoke (c : Control)
| EvGetLegacyIAccessiblePattern (c : Control)
| EvDoDefaultAction (l : Legacy)
| EvClick (c : Control)
| EvSleep (seconds : Q)
| EvPrint (msg : string).

Definition trace : Type := list event.

(** ** The backend interface *)

(** What the program uses of [uiautomation], and what it depends on in the
    Python runtime.  [be_printable] says whether [print] accepts a control
    name on this standard output: the program guards exactly that print
    with a [try]/[except].  [be_error_printable] says the same of the text
    [str(e)] of an exception, which the handlers of [click_button] print
    without a guard.  [be_sleep_limit] is the duration from which
    [time.sleep] refuses its argument with [OverflowError] (it depends on
    the platform and on the version of Python). *)
Class Backend (W : Type) : Type := {
  be_GetChildren : W -> result (list Window) * W;
  be_ClassName : Window -> W -> result string * W;
  be_ButtonControl : Window -> nat -> string -> W -> result Control * W;
  be_Exists : Control -> W -> result bool * W;
  be_Name : Control -> W -> result string * W;
  be_IsEnabled : Control -> W -> result bool * W;
  be_Invoke : Control -> W -> result unit * W;
  be_GetLegacyIAccessiblePattern : Control -> W -> result (option Legacy) * W;
  be_DoDefaultAction : Legacy -> W -> result unit * W;
  be_Click : Control -> W -> result unit * W;
  be_printable : string -> bool;
  be_error_printable : string -> bool;
  be_sleep_limit : Q
}.

(** ** The monad of the program *)

Module Prog.

(** A computation takes the world and gives a result, the new world and
    the events it produced, in order. *)
Definition M (W A : Type) : Type := W -> result A * W * trace.

Definition ret {W A} (a : A) : M W A := fun w => (Ok a, w, []).

Definition bind {W A B} (m : M W A) (k : A -> M W B) : M W B :=
  fun w =>
    match m w with
    | (Ok a, w1, t1) =>
        match k a w1 with
        | (r, w2, t2) => (r, w2, t1 ++ t2)
        end
    | (Raise e, w1, t1) => (Raise e, w1, t1)
    end.

(** A backend call: run it on the world and record it. *)
Definition call {W A} (op : W -> result A * W) (ev : result A -> event) : M W A :=
  fun w => match op w with (r, w1) => (r, w1, [ev r]) end.

Definition emit {W} (ev : event) : M W unit := fun w => (Ok tt, w, [ev]).

(** [try: body except Exception as e: handler(str(e))] *)
Definition try_except {W A} (body : M W A) (handler : string -> M W A) : M W A :=
  fun w =>
    match body w with
    | (Raise (Exception msg), w1, t1) =>
        match handler msg w1 with
        | (r, w2, t2) => (r, w2, t1 ++ t2)
        end
    | other => other
    end.

(** [try: body except KeyboardInterrupt: handler] *)
Definition try_interrupt {W A} (body : M W A) (handler : M W A) : M W A :=
  fun w =>
    match body w with
    | (Raise KeyboardInterrupt, w1, t1) =>
        match handler w1 with
        | (r, w2, t2) => (r, w2, t1 ++ t2)
        end
    | other => other
    end.

Definition outcome {W A} (x : result A * W * trace) : result A := fst (fst x).
Definition world {W A} (x : result A * W * trace) : W := snd (fst x).
Definition events {W A} (x : result A * W * trace) : trace := snd x.

(** The run [x] with the events [t] in front of its own. *)
Definition prepend {W A} (t : trace) (x : result A * W * trace)
  : result A * W * trace :=
  (outcome x, world x, t ++ events x).

End Prog.

Import Prog.

Declare Scope prog_scope.
Delimit Scope prog_scope with prog.

Notation "x <- m ;; k" := (bind m (fun x => k))
  (at level 61, m at next level, right associativity) : prog_scope.
Notation "m ;; k" := (bind m (fun _ => k))
  (at level 61, right associativity) : prog_scope.

Open Scope prog_scope.
Open Scope string_scope.
Open Scope list_scope.

(** The settle delay and the poll interval: [time.sleep(0.5)]. *)
Definition half_second : Q := 1 # 2.

(** [x > 0] on delays. *)
Definition Qpositive (x : Q) : bool := negb (Qle_bool x 0).

Arguments Qpositive : simpl never.

Section Program.

Context {W : Type} {B : Backend W}.

(** *** The calls of the program, traced *)

Definition GetChildren : M W (list Window) :=
  call be_GetChildren (fun _ => EvGetChildren).

Definition ClassName (window : Window) : M W string :=
  call (be_ClassName window) (EvClassName window).

Definition ButtonControl (window : Window) (searchDepth : nat) (RegexName : string)
  : M W Control :=
  call (be_ButtonControl window searchDepth RegexName)
       (fun _ => EvButtonControl window searchDepth RegexName).

Definition Exists (button : Control) : M W bool :=
  call (be_Exists button) (EvExists button).

Definition Name (button : Control) : M W string :=
  call (be_Name button) (fun _ => EvName button).

Definition IsEnabled (button : Control) : M W bool :=
  call (be_IsEnabled button) (EvIsEnabled button).

Definition Invoke (button : Control) : M W unit :=
  call (be_Invoke button) (fun _ => EvInvoke button).

Definition GetLegacyIAccessiblePattern (button : Control) : M W (option Legacy) :=
  call (be_GetLegacyIAccessiblePattern button)
       (fun _ => EvGetLegacyIAccessiblePattern button).

Definition DoDefaultAction (legacy : Legacy) : M W unit :=
  call (be_DoDefaultAction legacy) (fun _ => EvDoDefaultAction legacy).

Definition Click (button : Control) : M W unit :=
  call (be_Click button) (fun _ => EvClick button).

(** [time.sleep(0.5)] and the [flush_print] of a line made of fixed text
    and of the button type return normally.  A signal delivered during a
    sleep or a print is outside the model. *)
Definition sleep (seconds : Q) : M W unit := emit (EvSleep seconds).

Definition flush_print (msg : string) : M W unit := emit (EvPrint msg).

(** The exceptions of the runtime that the program can meet: the one of
    [time.sleep] on a duration it cannot represent, and the one of [print]
    on a text that the standard output cannot encode.  Both are instances
    of [Exception]; their texts are never printed by the program. *)
Definition OverflowError : exn :=
  Exception "timestamp too large to convert to C _PyTime_t".

Definition UnicodeEncodeError : exn :=
  Exception "codec can't encode character".

(** [time.sleep(seconds)] on a duration from the command line: the call
    raises [OverflowError] when the duration reaches the limit of the
    runtime (so does an infinite [--delay]), and sleeps otherwise. *)
Definition time_sleep (seconds : Q) : M W unit :=
  if Qle_bool be_sleep_limit seconds
  then fun w => (Raise OverflowError, w, [EvSleep seconds])
  else sleep seconds.

(** [flush_print(f"<label>{e}")] in an exception handler: the line is
    written when the text of the exception can be printed; otherwise
    [print] raises and nothing is written. *)
Definition flush_print_error (label e : string) : M W unit :=
  if be_error_printable e
  then flush_print (label ++ e)
  else fun w => (Raise UnicodeEncodeError, w, []).

(** *** click_button *)

(** The three methods of [click_button].  Each is one [try] block of the
    source; it gives [Some true] when the block executes [return True]
    and [None] when control falls out of the [try] statement (the body
    ended without returning, or the handler ran).  An exception raised in
    a handler (by its print) leaves the [try] statement. *)

Definition method1 (button : Control) (button_type : string) : M W (option bool) :=
  try_except
    (Invoke button ;;
     flush_print ("Success: " ++ button_type ++ " button invoked via UIA Pattern!") ;;
     sleep half_second ;;
     ret (Some true))
    (fun e => flush_print_error "Invoke failed: " e ;; ret None).

Definition method2 (button : Control) (button_type : string) : M W (option bool) :=
  try_except
    (legacy <- GetLegacyIAccessiblePattern button ;;
     match legacy with
     | Some l =>
         DoDefaultAction l ;;
         flush_print ("Success: " ++ button_type
                        ++ " button invoked via LegacyIAccessible!") ;;
         sleep half_second ;;
         ret (Some true)
     | None => ret None
     end)
    (fun e => flush_print_error "Legacy IAccessible failed: " e ;; ret None).

Definition method3 (button : Control) (button_type : string) : M W (option bool) :=
  try_except
    (Click button ;;
     flush_print ("Fallback: " ++ button_type
                    ++ " button physical click used (Mouse Moved)") ;;
     ret (Some true))
    (fun e => flush_print_error "Physical click failed: " e ;; ret None).

(** [clicked_successfully] is assigned [True] only on the line before a
    [return True], so each [if not clicked_successfully] sees [False];
    the flag is kept as the source has it. *)
Definition click_button (button : Control) (button_type : string) (click_delay : Q)
  : M W bool :=
  ex <- Exists button ;;
  if negb ex then ret false
  else
    name <- Name button ;;
    (if be_printable name
     then flush_print ("Found " ++ button_type ++ " button: " ++ name)
     else flush_print ("Found " ++ button_type ++ " button (name unprintable)")) ;;
    enabled <- IsEnabled button ;;
    if enabled then
      (if Qpositive click_delay then time_sleep click_delay else ret tt) ;;
      let clicked_successfully := false in
      r1 <- (if negb clicked_successfully then method1 button button_type
             else ret None) ;;
      match r1 with
      | Some v => ret v
      | None =>
          r2 <- (if negb clicked_successfully then method2 button button_type
                 else ret None) ;;
          match r2 with
          | Some v => ret v
          | None =>
              r3 <- (if negb clicked_successfully then method3 button button_type
                     else ret None) ;;
              match r3 with
              | Some v => ret v
              | None => ret false
              end
          end
      end
    else ret false.

(** *** The polling loop of main *)

(** The command line: [--pattern], [--confirm-pattern], [--delay]. *)
Record Config : Type := {
  accept_pattern : string;
  confirm_pattern : string;
  click_delay : Q
}.

Definition default_config : Config :=
  {| accept_pattern := "Accept.*";
     confirm_pattern := "Confirm.*";
     click_delay := 0 |}.

(** How one pass of the body of [for window in ...] ends: it reaches the
    end of the body or a [continue] ([Next]), or it executes [break]. *)
Inductive flow : Type := Next | Break.

Definition window_body (args : Config) (window : Window) : M W flow :=
  cls <- ClassName window ;;
  if negb (String.eqb cls "Chrome_WidgetWin_1") then ret Next
  else
    accept_button <- ButtonControl window 15 (accept_pattern args) ;;
    accepted <- click_button accept_button "Accept" (click_delay args) ;;
    if accepted then
      sleep half_second ;;
      confirm_button <- ButtonControl window 15 (confirm_pattern args) ;;
      found <- Exists confirm_button ;;
      (if found
       then (_ <- click_button confirm_button "Confirm" (click_delay args) ;; ret tt)
       else ret tt) ;;
      ret Break
    else
      confirm_button <- ButtonControl window 15 (confirm_pattern args) ;;
      confirmed <- click_button confirm_button "Confirm" (click_delay args) ;;
      if confirmed then ret Break else ret Next.

(** The [for] loop over the windows that [GetChildren] returned; the
    value says whether the loop was left by [break]. *)
Fixpoint for_windows (args : Config) (windows : list Window) : M W flow :=
  match windows with
  | [] => ret Next
  | window :: rest =>
      f <- window_body args window ;;
      match f with
      | Break => ret Break
      | Next => for_windows args rest
      end
  end.

(** The [try] block of one iteration of [while True]. *)
Definition cycle_body (args : Config) : M W unit :=
  windows <- GetChildren ;;
  _ <- for_windows args windows ;;
  ret tt.

(** One iteration of [while True]: the [try] block, its handler
    [except Exception as e: pass], then [time.sleep(0.5)]. *)
Definition cycle (args : Config) : M W unit :=
  try_except (cycle_body args) (fun _ => ret tt) ;;
  sleep half_second.

(** The first [n] iterations of [while True]. *)
Fixpoint watch_loop (args : Config) (n : nat) : M W unit :=
  match n with
  | O => ret tt
  | S k => cycle args ;; watch_loop args k
  end.

(** The loop under its [except KeyboardInterrupt] handler. *)
Definition main_loop (args : Config) (n : nat) : M W unit :=
  try_interrupt (watch_loop args n) (flush_print "Stopping UIA Service...").

End Program.

(** ** Observations on traces *)

(** The calls that belong to an activation strategy. *)
Definition is_strategy_call (ev : event) : bool :=
  match ev with
  | EvInvoke _ | EvGetLegacyIAccessiblePattern _ | EvDoDefaultAction _ | EvClick _ => true
  | _ => false
  end.

Definition strategy_calls (t : trace) : trace := filter is_strategy_call t.

Definition is_Invoke (ev : event) : bool :=
  match ev with EvInvoke _ => true | _ => false end.


Definition is_Sleep (ev : event) : bool :=
  match ev with EvSleep _ => true | _ => false end.

Definition is_Print (ev : event) : bool :=
  match ev with EvPrint _ => true | _ => false end.

(** A subtree search. *)
Definition is_search (ev : event) : bool :=
  match ev with EvButtonControl _ _ _ => true | _ => false end.

Definition count (p : event -> bool) (t : trace) : nat := List.length (filter p t).

(** ** A scripted backend *)

(** A backend for concrete runs.  Its world is a clock that counts the
    backend calls made so far, so that the answers to the enumeration and
    to the existence check may change while the program runs. *)
Record Script : Type := {
  sc_windows : nat -> result (list Window);
  sc_class : Window -> result string;
  sc_search : Window -> string -> result Control;
  sc_exists : Control -> nat -> result bool;
  sc_name : Control -> result string;
  sc_enabled : Control -> result bool;
  sc_invoke : Control -> result unit;
  sc_legacy : Control -> result (option Legacy);
  sc_default_action : Legacy -> result unit;
  sc_click : Control -> result unit;
  sc_printable : string -> bool
}.

(** The limit of [time.sleep] where the duration is kept as a signed
    64-bit count of nanoseconds: 2^63 ns, a little over 9.2e9 seconds. *)
Definition cpython_sleep_limit : Q := 9223372036854775808 # 1000000000.

(** On a scripted backend every exception text can be printed. *)
Definition scripted (s : Script) : Backend nat :=
  {| be_GetChildren := fun t => (sc_windows s t, S t);
     be_ClassName := fun w t => (sc_class s w, S t);
     be_ButtonControl := fun w _ p t => (sc_search s w p, S t);
     be_Exists := fun c t => (sc_exists s c t, S t);
     be_Name := fun c t => (sc_name s c, S t);
     be_IsEnabled := fun c t => (sc_enabled s c, S t);
     be_Invoke := fun c t => (sc_invoke s c, S t);
     be_GetLegacyIAccessiblePattern := fun c t => (sc_legacy s c, S t);
     be_DoDefaultAction := fun l t => (sc_default_action s l, S t);
     be_Click := fun c t => (sc_click s c, S t);
     be_printable := sc_printable s;
     be_error_printable := fun _ => true;
     be_sleep_limit := cpython_sleep_limit |}.

(** One window of the target class with an Accept button (control 1) and a
    Confirm button (control 2), both present, enabled and supporting the
    first strategy.  The scripts below change one answer at a time. *)
Definition win1 : Window := WindowHandle 1.
Definition accept_btn : Control := ControlHandle 1.
Definition confirm_btn : Control := ControlHandle 2.

Definition base_script : Script :=
  {| sc_windows := fun _ => Ok [win1];
     sc_class := fun _ => Ok "Chrome_WidgetWin_1";
     sc_search := fun _ p =>
       if String.eqb p "Accept.*" then Ok accept_btn else Ok confirm_btn;
     sc_exists := fun _ _ => Ok true;
     sc_name := fun c => if Control_eqb c accept_btn then Ok "Accept" else Ok "Confirm";
     sc_enabled := fun _ => Ok true;
     sc_invoke := fun _ => Ok tt;
     sc_legacy := fun _ => Ok None;
     sc_default_action := fun _ => Ok tt;
     sc_click := fun _ => Ok tt;
     sc_printable := fun _ => true |}.

Definition with_invoke (s : Script) (f : Control -> result unit) : Script :=
  {| sc_windows := sc_windows s; sc_class := sc_class s; sc_search := sc_search s;
     sc_exists := sc_exists s; sc_name := sc_name s; sc_enabled := sc_enabled s;
     sc_invoke := f;
     sc_legacy := sc_legacy s; sc_default_action := sc_default_action s;
     sc_click := sc_click s; sc_printable := sc_printable s |}.

Definition with_legacy (s : Script) (f : Control -> result (option Legacy)) : Script :=
  {| sc_windows := sc_windows s; sc_class := sc_class s; sc_search := sc_search s;
     sc_exists := sc_exists s; sc_name := sc_name s; sc_enabled := sc_enabled s;
     sc_invoke := sc_invoke s;
     sc_legacy := f;
     sc_default_action := sc_default_action s;
     sc_click := sc_click s; sc_printable := sc_printable s |}.

Definition with_enabled (s : Script) (f : Control -> result bool) : Script :=
  {| sc_windows := sc_windows s; sc_class := sc_class s; sc_search := sc_search s;
     sc_exists := sc_exists s; sc_name := sc_name s;
     sc_enabled := f;
     sc_invoke := sc_invoke s;
     sc_legacy := sc_legacy s; sc_default_action := sc_default_action s;
     sc_click := sc_click s; sc_printable := sc_printable s |}.

Definition with_exists (s : Script) (f : Control -> nat -> result bool) : Script :=
  {| sc_windows := sc_windows s; sc_class := sc_class s; sc_search := sc_search s;
     sc_exists := f;
     sc_name := sc_name s; sc_enabled := sc_enabled s;
     sc_invoke := sc_invoke s;
     sc_legacy := sc_legacy s; sc_default_action := sc_default_action s;
     sc_click := sc_click s; sc_printable := sc_printable s |}.

Definition with_windows (s : Script) (f : nat -> result (list Window)) : Script :=
  {| sc_windows := f;
     sc_class := sc_class s; sc_search := sc_search s;
     sc_exists := sc_exists s;
     sc_name := sc_name s; sc_enabled := sc_enabled s;
     sc_invoke := sc_invoke s;
     sc_legacy := sc_legacy s; sc_default_action := sc_default_action s;
     sc_click := sc_click s; sc_printable := sc_printable s |}.

Definition with_class (s : Script) (f : Window -> result string) : Script :=
  {| sc_windows := sc_windows s;
     sc_class := f;
     sc_search := sc_search s;
     sc_exists := sc_exists s;
     sc_name := sc_name s; sc_enabled := sc_enabled s;
     sc_invoke := sc_invoke s;
     sc_legacy := sc_legacy s; sc_default_action := sc_default_action s;
     sc_click := sc_click s; sc_printable := sc_printable s |}.

Definition with_name (s : Script) (f : Control -> result string) : Script :=
  {| sc_windows := sc_windows s;
     sc_class := sc_class s;
     sc_search := sc_search s;
     sc_exists := sc_exists s;
     sc_name := f;
     sc_enabled := sc_enabled s;
     sc_invoke := sc_invoke s;
     sc_legacy := sc_legacy s; sc_default_action := sc_default_action s;
     sc_click := sc_click s; sc_printable := sc_printable s |}.

(** Every programmatic strategy unavailable: [Invoke] raises and there is
    no legacy pattern, so that only the physical click can succeed. *)
Definition click_only_script : Script :=
  with_invoke base_script (fun _ => Raise (Exception "no InvokePattern")).

(** The legacy pattern is there and works, [Invoke] is not supported. *)
Definition legacy_script : Script :=
  with_legacy click_only_script (fun _ => Ok (Some (LegacyPattern 7))).

(** The Confirm button is a ghost: it exists while the clock is below 9
    (the existence check that [main] makes after a successful Accept falls
    on tick 8) and is gone from tick 9 on. *)
Definition ghost_script : Script :=
  with_exists base_script
    (fun c t => if Control_eqb c confirm_btn then Ok (Nat.ltb t 9) else Ok true).

(** The enumeration of the windows fails once, on the first call. *)
Definition flaky_enumeration_script : Script :=
  with_windows base_script
    (fun t => if Nat.eqb t 0 then Raise (Exception "enumeration failed")
              else Ok [win1]).

(** Two windows of the target class; reading the name of the Accept button
    fails. *)
Definition win2 : Window := WindowHandle 2.

Definition name_error_script : Script :=
  with_name (with_windows base_script (fun _ => Ok [win1; win2]))
    (fun _ => Raise (Exception "COM error")).

(** A window of another class in front of the target window. *)
Definition other_class_script : Script :=
  with_class (with_windows base_script (fun _ => Ok [win2; win1]))
    (fun w => if Window_eqb w win2 then Ok "Shell_TrayWnd"
              else Ok "Chrome_WidgetWin_1").

(** No Accept button: the control the Accept search gives does not exist;
    the Confirm button does. *)
Definition confirm_only_script : Script :=
  with_exists base_script (fun c _ => Ok (negb (Control_eqb c accept_btn))).

(** An Accept button and no Confirm button. *)
Definition accept_only_script : Script :=
  with_exists base_script (fun c _ => Ok (Control_eqb c accept_btn)).

(** ** Shapes of the cascade's trace *)

Section CascadeShapes.

Context {W : Type} {B : Backend W}.

(** The line printed when the control is found. *)
Definition found_line (button_type name : string) : string :=
  if be_printable name
  then "Found " ++ button_type ++ " button: " ++ name
  else "Found " ++ button_type ++ " button (name unprintable)".

(** The events of a call of [click_button] up to and including the read
    of the enabled flag. *)
Definition entry_events (button : Control) (button_type name : string)
  (enabled : bool) : trace :=
  [EvExists button (Ok true); EvName button;
   EvPrint (found_line button_type name); EvIsEnabled button (Ok enabled)].

(** The pre-click delay is one that [click_button] gets past: it is not
    positive (no sleep is made) or it is below the limit of
    [time.sleep]. *)
Definition delay_accepted (click_delay : Q) : bool :=
  negb (Qpositive click_delay) || negb (Qle_bool be_sleep_limit click_delay).

(** The events of the pre-click delay. *)
Definition delay_events (click_delay : Q) : trace :=
  if Qpositive click_delay then [EvSleep click_delay] else [].

(** The ways the second strategy fails from world [w] and is logged (or
    falls through silently): the legacy pattern cannot be obtained (the
    call raises, or gives [None]), or its default action raises.  The last
    two arguments are the world after the attempt and the backend calls
    the attempt made. *)
Inductive legacy_fails (button : Control) (w : W) : W -> trace -> Prop :=
| legacy_pattern_raises (msg : string) (w1 : W) :
    be_GetLegacyIAccessiblePattern button w = (Raise (Exception msg), w1) ->
    be_error_printable msg = true ->
    legacy_fails button w w1 [EvGetLegacyIAccessiblePattern button]
| legacy_pattern_missing (w1 : W) :
    be_GetLegacyIAccessiblePattern button w = (Ok None, w1) ->
    legacy_fails button w w1 [EvGetLegacyIAccessiblePattern button]
| legacy_action_raises (l : Legacy) (msg : string) (w1 w2 : W) :
    be_GetLegacyIAccessiblePattern button w = (Ok (Some l), w1) ->
    be_DoDefaultAction l w1 = (Raise (Exception msg), w2) ->
    be_error_printable msg = true ->
    legacy_fails button w w2
      [EvGetLegacyIAccessiblePattern button; EvDoDefaultAction l].

End CascadeShapes.

(** ** Disciplines on traces *)

(** The window whose class was read last, when that read gave the target
    class. *)
Definition current_target (w : Window) (r : result string) : option Window :=
  match r with
  | Ok cls => if String.eqb cls "Chrome_WidgetWin_1" then Some w else None
  | Raise _ => None
  end.

(** Every subtree search in the trace is on the window whose class was the
    last one read, and that read gave the target class. *)
Fixpoint searches_guarded (cur : option Window) (t : trace) : bool :=
  match t with
  | [] => true
  | EvClassName w r :: rest => searches_guarded (current_target w r) rest
  | EvButtonControl w _ _ :: rest =>
      match cur with
      | Some w' => Window_eqb w w'
      | None => false
      end && searches_guarded cur rest
  | _ :: rest => searches_guarded cur rest
  end.

(** The value of [cur] that the scan of [t] ends with. *)
Fixpoint target_after (cur : option Window) (t : trace) : option Window :=
  match t with
  | [] => cur
  | EvClassName w r :: rest => target_after (current_target w r) rest
  | _ :: rest => target_after cur rest
  end.

(** The poll sleep that ends an iteration of [while True], seen from the
    outcome of its [try] block: it is skipped only when a
    [KeyboardInterrupt] leaves the loop. *)
Definition poll_sleep {A : Type} (r : result A) : trace :=
  match r with
  | Raise KeyboardInterrupt => []
  | _ => [EvSleep half_second]
  end.

(** The outcome of an iteration of [while True], from the outcome of its
    [try] block: [except Exception: pass] absorbs every [Exception]. *)
Definition absorbed {A : Type} (r : result A) : result unit :=
  match r with
  | Raise KeyboardInterrupt => Raise KeyboardInterrupt
  | _ => Ok tt
  end.

(** The events a call of [click_button] can produce: anything but the
    enumeration, a class read or a subtree search. *)
Definition is_cascade_event (ev : event) : bool :=
  match ev with
  | EvGetChildren | EvClassName _ _ | EvButtonControl _ _ _ => false
  | _ => true
  end.

(** ** Further observations on traces *)

Definition is_GetChildren (ev : event) : bool :=
  match ev with EvGetChildren => true | _ => false end.

(** The calls that activate a control (the read of the legacy pattern does
    not). *)
Definition is_activation (ev : event) : bool :=
  match ev with
  | EvInvoke _ | EvDoDefaultAction _ | EvClick _ => true
  | _ => false
  end.


(** [time.sleep] raises [ValueError] on a negative duration; a sleep of a
    positive duration is the only kind the program should make. *)
Definition sleeps_positive (ev : event) : bool :=
  match ev with
  | EvSleep seconds => Qpositive seconds
  | _ => true
  end.

(** The sleeps of exactly half a second. *)
Definition sleeps_half_second (ev : event) : bool :=
  match ev with
  | EvSleep seconds => Qeq_bool seconds half_second
  | _ => true
  end.

(** Every search is made with [searchDepth=15] and with one of the two
    configured name patterns. *)
Definition search_as_configured (accept confirm : string) (ev : event) : bool :=
  match ev with
  | EvButtonControl _ depth pattern =>
      Nat.eqb depth 15 && (String.eqb pattern accept || String.eqb pattern confirm)
  | _ => true
  end.

Definition not_GetChildren (ev : event) : bool := negb (is_GetChildren ev).

(** ** The stamp that flush_print writes *)

(** The wall-clock reading that [datetime.now()] gives [flush_print], as
    far as [strftime("[%H:%M:%S]")] looks at it. *)
Record time_of_day : Type := {
  hour : nat;
  minute : nat;
  second : nat
}.

Definition valid_time (now : time_of_day) : Prop :=
  (hour now < 24 /\ minute now < 60 /\ second now < 60)%nat.

Definition digit (n : nat) : Ascii.ascii := Ascii.ascii_of_nat (48 + n).

(** [%H], [%M] and [%S]: two decimal digits, zero-padded. *)
Definition two_digits (n : nat) : string :=
  String (digit (n / 10)) (String (digit (n mod 10)) EmptyString).

(** [ts = datetime.now().strftime("[%H:%M:%S]")] *)
Definition ts (now : time_of_day) : string :=
  "[" ++ two_digits (hour now) ++ ":" ++ two_digits (minute now)
      ++ ":" ++ two_digits (second now) ++ "]".

(** ** More scripted backends *)

(** The user interrupts during the first strategy call. *)
Definition interrupt_script : Script :=
  with_invoke base_script (fun _ => Raise KeyboardInterrupt).

Definition with_click (s : Script) (f : Control -> result unit) : Script :=
  {| sc_windows := sc_windows s; sc_class := sc_class s; sc_search := sc_search s;
     sc_exists := sc_exists s; sc_name := sc_name s; sc_enabled := sc_enabled s;
     sc_invoke := sc_invoke s;
     sc_legacy := sc_legacy s; sc_default_action := sc_default_action s;
     sc_click := f; sc_printable := sc_printable s |}.

(** No strategy works: [Invoke] raises, there is no legacy pattern, the
    physical click raises. *)
Definition hopeless_script : Script :=
  with_click click_only_script (fun _ => Raise (Exception "no clickable point")).

(** Two windows of the target class, each with a working Accept button. *)
Definition two_windows_script : Script :=
  with_windows base_script (fun _ => Ok [win1; win2]).


(** ** Errors in a pass of the loop body *)

Section BodyErrors.

Context {W : Type} {B : Backend W}.

(** The ways a pass of the loop body at [window], started in world [w],
    meets an [Exception] with text [msg]: at the class read, at the search
    for the Accept button, in the Accept cascade, and after it at the
    search for the Confirm button, at the existence check of that button
    or in the Confirm cascade.  The other arguments are the world in which
    the exception is raised and the events of the pass up to it. *)
Inductive body_error (args : Config) (window : Window) (w : W)
  : W -> trace -> string -> Prop :=
| class_read_raises (msg : string) (w1 : W) :
    be_ClassName window w = (Raise (Exception msg), w1) ->
    body_error args window w w1
      [EvClassName window (Raise (Exception msg))] msg
| accept_search_raises (msg : string) (w1 w2 : W) :
    be_ClassName window w = (Ok "Chrome_WidgetWin_1", w1) ->
    be_ButtonControl window 15 (accept_pattern args) w1
    = (Raise (Exception msg), w2) ->
    body_error args window w w2
      [EvClassName window (Ok "Chrome_WidgetWin_1");
       EvButtonControl window 15 (accept_pattern args)] msg
| accept_cascade_raises (msg : string) (w1 w2 w3 : W) (accept_button : Control)
    (t3 : trace) :
    be_ClassName window w = (Ok "Chrome_WidgetWin_1", w1) ->
    be_ButtonControl window 15 (accept_pattern args) w1 = (Ok accept_button, w2) ->
    click_button accept_button "Accept" (click_delay args) w2
    = (Raise (Exception msg), w3, t3) ->
    body_error args window w w3
      ([EvClassName window (Ok "Chrome_WidgetWin_1");
        EvButtonControl window 15 (accept_pattern args)] ++ t3) msg
| confirm_search_raises (msg : string) (w1 w2 w3 w4 : W) (accept_button : Control)
    (t3 : trace) :
    be_ClassName window w = (Ok "Chrome_WidgetWin_1", w1) ->
    be_ButtonControl window 15 (accept_pattern args) w1 = (Ok accept_button, w2) ->
    click_button accept_button "Accept" (click_delay args) w2 = (Ok true, w3, t3) ->
    be_ButtonControl window 15 (confirm_pattern args) w3
    = (Raise (Exception msg), w4) ->
    body_error args window w w4
      ([EvClassName window (Ok "Chrome_WidgetWin_1");
        EvButtonControl window 15 (accept_pattern args)]
         ++ t3
         ++ [EvSleep half_second;
             EvButtonControl window 15 (confirm_pattern args)]) msg
| confirm_exists_raises (msg : string) (w1 w2 w3 w4 w5 : W)
    (accept_button confirm_button : Control) (t3 : trace) :
    be_ClassName window w = (Ok "Chrome_WidgetWin_1", w1) ->
    be_ButtonControl window 15 (accept_pattern args) w1 = (Ok accept_button, w2) ->
    click_button accept_button "Accept" (click_delay args) w2 = (Ok true, w3, t3) ->
    be_ButtonControl window 15 (confirm_pattern args) w3 = (Ok confirm_button, w4) ->
    be_Exists confirm_button w4 = (Raise (Exception msg), w5) ->
    body_error args window w w5
      ([EvClassName window (Ok "Chrome_WidgetWin_1");
        EvButtonControl window 15 (accept_pattern args)]
         ++ t3
         ++ [EvSleep half_second;
             EvButtonControl window 15 (confirm_pattern args);
             EvExists confirm_button (Raise (Exception msg))]) msg
| confirm_cascade_raises (msg : string) (w1 w2 w3 w4 w5 w6 : W)
    (accept_button confirm_button : Control) (t3 t6 : trace) :
    be_ClassName window w = (Ok "Chrome_WidgetWin_1", w1) ->
    be_ButtonControl window 15 (accept_pattern args) w1 = (Ok accept_button, w2) ->
    click_button accept_button "Accept" (click_delay args) w2 = (Ok true, w3, t3) ->
    be_ButtonControl window 15 (confirm_pattern args) w3 = (Ok confirm_button, w4) ->
    be_Exists confirm_button w4 = (Ok true, w5) ->
    click_button confirm_button "Confirm" (click_delay args) w5
    = (Raise (Exception msg), w6, t6) ->
    body_error args window w w6
      ([EvClassName window (Ok "Chrome_WidgetWin_1");
        EvButtonControl window 15 (accept_pattern args)]
         ++ t3
         ++ [EvSleep half_second;
             EvButtonControl window 15 (confirm_pattern args);
             EvExists confirm_button (Ok true)]
         ++ t6) msg
| confirm_alone_search_raises (msg : string) (w1 w2 w3 w4 : W)
    (accept_button : Control) (t3 : trace) :
    be_ClassName window w = (Ok "Chrome_WidgetWin_1", w1) ->
    be_ButtonControl window 15 (accept_pattern args) w1 = (Ok accept_button, w2) ->
    click_button accept_button "Accept" (click_delay args) w2 = (Ok false, w3, t3) ->
    be_ButtonControl window 15 (confirm_pattern args) w3
    = (Raise (Exception msg), w4) ->
    body_error args window w w4
      ([EvClassName window (Ok "Chrome_WidgetWin_1");
        EvButtonControl window 15 (accept_pattern args)]
         ++ t3
         ++ [EvButtonControl window 15 (confirm_pattern args)]) msg
| confirm_alone_cascade_raises (msg : string) (w1 w2 w3 w4 w5 : W)
    (accept_button confirm_button : Control) (t3 t5 : trace) :
    be_ClassName window w = (Ok "Chrome_WidgetWin_1", w1) ->
    be_ButtonControl window 15 (accept_pattern args) w1 = (Ok accept_button, w2) ->
    click_button accept_button "Accept" (click_delay args) w2 = (Ok false, w3, t3) ->
    be_ButtonControl window 15 (confirm_pattern args) w3 = (Ok confirm_button, w4) ->
    click_button confirm_button "Confirm" (click_delay args) w4
    = (Raise (Exception msg), w5, t5) ->
    body_error args window w w5
      ([EvClassName window (Ok "Chrome_WidgetWin_1");
        EvButtonControl window 15 (accept_pattern args)]
         ++ t3
         ++ [EvButtonControl window 15 (confirm_pattern args)]
         ++ t5) msg.

End BodyErrors.

(** ** Scripted backends for the error paths *)

Definition with_search (s : Script) (f : Window -> string -> result Control) : Script :=
  {| sc_windows := sc_windows s; sc_class := sc_class s;
     sc_search := f;
     sc_exists := sc_exists s; sc_name := sc_name s; sc_enabled := sc_enabled s;
     sc_invoke := sc_invoke s;
     sc_legacy := sc_legacy s; sc_default_action := sc_default_action s;
     sc_click := sc_click s; sc_printable := sc_printable s |}.

(** The window closes between the enumeration and the class read. *)
Definition class_error_script : Script :=
  with_class base_script (fun _ => Raise (Exception "window closed")).

(** Every subtree search fails. *)
Definition search_error_script : Script :=
  with_search base_script (fun _ _ => Raise (Exception "search failed")).

(** The existence check of the Confirm button fails. *)
Definition confirm_check_error_script : Script :=
  with_exists base_script
    (fun c _ => if Control_eqb c confirm_btn then Raise (Exception "stale element")
                else Ok true).

(** The Accept button exists when the cascade is entered (tick 0) and is
    gone from then on. *)
Definition vanishing_script : Script :=
  with_exists base_script (fun _ t => Ok (Nat.eqb t 0)).

(** The same backend with another answer on which exception texts can be
    printed. *)
Definition with_be_error_printable {W : Type} (B : Backend W) (f : string -> bool)
  : Backend W :=
  {| be_GetChildren := be_GetChildren;
     be_ClassName := be_ClassName;
     be_ButtonControl := be_ButtonControl;
     be_Exists := be_Exists;
     be_Name := be_Name;
     be_IsEnabled := be_IsEnabled;
     be_Invoke := be_Invoke;
     be_GetLegacyIAccessiblePattern := be_GetLegacyIAccessiblePattern;
     be_DoDefaultAction := be_DoDefaultAction;
     be_Click := be_Click;
     be_printable := be_printable;
     be_error_printable := f;
     be_sleep_limit := be_sleep_limit |}.

(** A delay of ten thousand million seconds, above the limit. *)
Definition oversized_delay : Q := 10000000000 # 1.

(** [--delay 10000000000] with the default patterns. *)
Definition oversized_config : Config :=
  {| accept_pattern := "Accept.*";
     confirm_pattern := "Confirm.*";
     click_delay := oversized_delay |}.

Definition not_strategy_call (ev : event) : bool := negb (is_strategy_call ev).

(** ** Running the program: equations of the monad *)

Section Running.

Context {W : Type}.

Lemma bind_Ok {A B} (m : M W A) (k : A -> M W B) w a w1 t1 :
  m w = (Ok a, w1, t1) -> bind m k w = prepend t1 (k a w1).
Proof.
  intros Hm. unfold bind. rewrite Hm.
  destruct (k a w1) as [[r w2] t2]. reflexivity.
Qed.

Lemma bind_Raise {A B} (m : M W A) (k : A -> M W B) w e w1 t1 :
  m w = (Raise e, w1, t1) ->
  bind m k w = (Raise e, w1, t1).
Proof. intros Hm. unfold bind. rewrite Hm. reflexivity. Qed.

Lemma call_run {A} (op : W -> result A * W) (ev : result A -> event) w r w1 :
  op w = (r, w1) -> call op ev w = (r, w1, [ev r]).
Proof. intros Hop. unfold call. rewrite Hop. reflexivity. Qed.

Lemma try_except_Ok {A} (body : M W A) handler w a w1 t1 :
  body w = (Ok a, w1, t1) -> try_except body handler w = (Ok a, w1, t1).
Proof. intros Hb. unfold try_except. rewrite Hb. reflexivity. Qed.

Lemma try_except_Exception {A} (body : M W A) handler w msg w1 t1 :
  body w = (Raise (Exception msg), w1, t1) ->
  try_except body handler w = prepend t1 (handler msg w1).
Proof.
  intros Hb. unfold try_except. rewrite Hb.
  destruct (handler msg w1) as [[r w2] t2]. reflexivity.
Qed.

Lemma try_except_KeyboardInterrupt {A} (body : M W A) handler w w1 t1 :
  body w = (Raise KeyboardInterrupt, w1, t1) ->
  try_except body handler w = (Raise KeyboardInterrupt, w1, t1).
Proof. intros Hb. unfold try_except. rewrite Hb. reflexivity. Qed.

Lemma surjective_run {A} (x : result A * W * trace) :
  x = (outcome x, world x, events x).
Proof. destruct x as [[r w] t]. reflexivity. Qed.

End Running.

(** Case analysis on every answer the backend gives along a run. *)
Ltac case_answer :=
  match goal with
  | |- context [be_Exists ?c ?w] =>
      destruct (be_Exists c w) as [[[|]|[?|]] ?]
  | |- context [be_Name ?c ?w] =>
      destruct (be_Name c w) as [[?|[?|]] ?]
  | |- context [be_printable ?n] =>
      destruct (be_printable n)
  | |- context [be_IsEnabled ?c ?w] =>
      destruct (be_IsEnabled c w) as [[[|]|[?|]] ?]
  | |- context [Qpositive ?d] =>
      destruct (Qpositive d)
  | |- context [Qle_bool be_sleep_limit ?d] =>
      destruct (Qle_bool be_sleep_limit d)
  | |- context [be_error_printable ?e] =>
      destruct (be_error_printable e)
  | |- context [be_Invoke ?c ?w] =>
      destruct (be_Invoke c w) as [[?|[?|]] ?]
  | |- context [be_GetLegacyIAccessiblePattern ?c ?w] =>
      destruct (be_GetLegacyIAccessiblePattern c w) as [[[?|]|[?|]] ?]
  | |- context [be_DoDefaultAction ?l ?w] =>
      destruct (be_DoDefaultAction l w) as [[?|[?|]] ?]
  | |- context [be_Click ?c ?w] =>
      destruct (be_Click c w) as [[?|[?|]] ?]
  end.

Ltac case_answers :=
  repeat (cbn -[Qpositive Qle_bool String.append]; case_answer);
  cbn -[Qpositive Qle_bool String.append].

Ltac unfold_calls :=
  unfold Exists, Name, IsEnabled, Invoke, GetLegacyIAccessiblePattern,
    DoDefaultAction, Click, ButtonControl, ClassName, GetChildren,
    time_sleep, flush_print_error, sleep, flush_print, emit, call, ret, bind,
    try_except in *.

Ltac unfold_cascade :=
  unfold click_button, method1, method2, method3; unfold_calls.

(** ** The invocation cascade *)

Section Cascade.

Context {W : Type} {B : Backend W}.

Lemma click_button_absent (button : Control) (button_type : string) (click_delay : Q)
  (w w1 : W) :
  be_Exists button w = (Ok false, w1) ->
  click_button button button_type click_delay w
  = (Ok false, w1, [EvExists button (Ok false)]).
Proof.
  intros HE. unfold_cascade. rewrite HE. reflexivity.
Qed.

Lemma click_button_disabled (button : Control) (button_type : string)
  (click_delay : Q) (w w1 w2 w3 : W) (name : string) :
  be_Exists button w = (Ok true, w1) ->
  be_Name button w1 = (Ok name, w2) ->
  be_IsEnabled button w2 = (Ok false, w3) ->
  click_button button button_type click_delay w
  = (Ok false, w3, entry_events button button_type name false).
Proof.
  intros HE HN HI. unfold_cascade. rewrite HE. cbn. rewrite HN.
  unfold entry_events, found_line.
  destruct (be_printable name); cbn; rewrite HI; reflexivity.
Qed.

End Cascade.

Section CascadeProperties.

Context {W : Type} {B : Backend W}.

(** C8.  A control that is gone when the cascade is entered (the
    existence check answers false, whatever the discovery saw before) is
    not acted on: [click_button] makes that one check, calls none of the
    three strategies, prints nothing, does not sleep, and returns [False],
    the value the program has for the not-found outcome. *)
Theorem cascade_not_found (button : Control) (button_type : string)
  (click_delay : Q) (w w1 : W) :
  be_Exists button w = (Ok false, w1) ->
  click_button button button_type click_delay w
  = (Ok false, w1, [EvExists button (Ok false)])
  /\ strategy_calls (events (click_button button button_type click_delay w)) = [].
Proof.
  intros HE. erewrite click_button_absent by eassumption. split; reflexivity.
Qed.

(** C2.  A control that exists but reports itself disabled is not acted
    on: [click_button] returns [False] (the value the program has for the
    disabled outcome) right after reading the enabled flag, having called
    none of the three strategies and without any sleep. *)
Theorem cascade_disabled_short_circuit (button : Control) (button_type : string)
  (click_delay : Q) (w w1 w2 w3 : W) (name : string) :
  be_Exists button w = (Ok true, w1) ->
  be_Name button w1 = (Ok name, w2) ->
  be_IsEnabled button w2 = (Ok false, w3) ->
  click_button button button_type click_delay w
  = (Ok false, w3, entry_events button button_type name false)
  /\ strategy_calls (events (click_button button button_type click_delay w)) = []
  /\ count is_Sleep (events (click_button button button_type click_delay w)) = 0%nat.
Proof.
  intros HE HN HI. erewrite click_button_disabled by eassumption.
  repeat split; reflexivity.
Qed.

(** On a control that exists and is enabled, [click_button] is its three
    reads and the optional pre-click delay followed by the three methods
    in order, each one run only when the previous one fell through. *)
Lemma click_button_enabled (button : Control) (button_type : string)
  (click_delay : Q) (w w1 w2 w3 : W) (name : string) :
  be_Exists button w = (Ok true, w1) ->
  be_Name button w1 = (Ok name, w2) ->
  be_IsEnabled button w2 = (Ok true, w3) ->
  delay_accepted click_delay = true ->
  click_button button button_type click_delay w
  = prepend (entry_events button button_type name true ++ delay_events click_delay)
      (match method1 button button_type w3 with
       | (Ok (Some v), w', t) => (Ok v, w', t)
       | (Ok None, w', t) =>
           prepend t
             (match method2 button button_type w' with
              | (Ok (Some v), w'', t') => (Ok v, w'', t')
              | (Ok None, w'', t') =>
                  prepend t'
                    (match method3 button button_type w'' with
                     | (Ok (Some v), w3', t3) => (Ok v, w3', t3)
                     | (Ok None, w3', t3) => (Ok false, w3', t3)
                     | (Raise e, w3', t3) => (Raise e, w3', t3)
                     end)
              | (Raise e, w'', t') => (Raise e, w'', t')
              end)
       | (Raise e, w', t) => (Raise e, w', t)
       end).
Proof.
  intros HE HN HI Hd. unfold click_button.
  assert (Hsleep : (if Qpositive click_delay
                    then time_sleep click_delay else ret tt) w3
                   = (Ok tt, w3, delay_events click_delay)).
  { unfold delay_accepted in Hd. unfold time_sleep, delay_events, sleep, emit, ret.
    destruct (Qpositive click_delay); [|reflexivity].
    destruct (Qle_bool be_sleep_limit click_delay); [discriminate Hd|reflexivity]. }
  unfold Exists, Name, IsEnabled, flush_print, emit, call, ret, bind in *.
  rewrite HE. cbn -[Qpositive Qle_bool String.append method1 method2 method3 time_sleep].
  rewrite HN. unfold entry_events, found_line.
  destruct (be_printable name);
    cbn -[Qpositive Qle_bool String.append method1 method2 method3 time_sleep];
    rewrite HI;
    cbn -[Qpositive Qle_bool String.append method1 method2 method3 time_sleep];
    rewrite Hsleep;
    destruct (method1 button button_type w3) as [[[[v|]|e] w'] t]; cbn;
    try reflexivity;
    try (rewrite app_nil_r; reflexivity);
    destruct (method2 button button_type w') as [[[[v|]|e] w''] t']; cbn;
    try (rewrite ?app_nil_r; reflexivity);
    destruct (method3 button button_type w'') as [[[[v|]|e] w3'] t3]; cbn;
    rewrite ?app_nil_r; reflexivity.
Qed.


(** Where the settle delay is: a success of [Invoke] or of the legacy
    default action ends with [time.sleep(0.5)]; a success of the physical
    click ends with its log line, and the only sleep of that run is the
    pre-click delay, when there is one. *)
Lemma settle_delay_by_strategy (button : Control) (button_type : string)
  (click_delay : Q) (w w1 w2 w3 : W) (name : string) :
  be_Exists button w = (Ok true, w1) ->
  be_Name button w1 = (Ok name, w2) ->
  be_IsEnabled button w2 = (Ok true, w3) ->
  delay_accepted click_delay = true ->
  (forall w4,
      be_Invoke button w3 = (Ok tt, w4) ->
      last (events (click_button button button_type click_delay w)) EvGetChildren
      = EvSleep half_second)
  /\ (forall msg w4 l w5 w6,
         be_Invoke button w3 = (Raise (Exception msg), w4) ->
         be_error_printable msg = true ->
         be_GetLegacyIAccessiblePattern button w4 = (Ok (Some l), w5) ->
         be_DoDefaultAction l w5 = (Ok tt, w6) ->
         last (events (click_button button button_type click_delay w)) EvGetChildren
         = EvSleep half_second)
  /\ (forall msg w4 w5 calls w6,
         be_Invoke button w3 = (Raise (Exception msg), w4) ->
         be_error_printable msg = true ->
         legacy_fails button w4 w5 calls ->
         be_Click button w5 = (Ok tt, w6) ->
         outcome (click_button button button_type click_delay w) = Ok true
         /\ last (events (click_button button button_type click_delay w))
              EvGetChildren
            = EvPrint ("Fallback: " ++ button_type
                         ++ " button physical click used (Mouse Moved)")
         /\ count is_Sleep (events (click_button button button_type click_delay w))
            = (if Qpositive click_delay then 1 else 0)%nat).
Proof.
  intros HE HN HI Hd.
  pose proof (click_button_enabled button button_type click_delay
                w w1 w2 w3 name HE HN HI Hd) as Hentry.
  split; [|split].
  - intros w4 HV. rewrite Hentry. unfold method1. unfold_calls. rewrite HV.
    unfold prepend, entry_events, delay_events.
    destruct (Qpositive click_delay); reflexivity.
  - intros msg w4 l w5 w6 HV Hp HL HD. rewrite Hentry.
    unfold method1, method2. unfold_calls. rewrite HV.
    cbn -[Qpositive Qle_bool String.append]. rewrite Hp.
    cbn -[Qpositive Qle_bool String.append]. rewrite HL.
    cbn -[Qpositive Qle_bool String.append]. rewrite HD.
    unfold prepend, entry_events, delay_events.
    destruct (Qpositive click_delay); reflexivity.
  - intros msg w4 w5 calls w6 HV Hp HF HC. rewrite Hentry.
    unfold method1, method2, method3. unfold_calls. rewrite HV.
    cbn -[Qpositive Qle_bool String.append]. rewrite Hp.
    cbn -[Qpositive Qle_bool String.append].
    destruct HF as [m w5 HL Hm | w5 HL | l m w' w5 HL HD Hm];
      rewrite HL; cbn -[Qpositive Qle_bool String.append];
      try (rewrite HD; cbn -[Qpositive Qle_bool String.append]);
      try (rewrite Hm; cbn -[Qpositive Qle_bool String.append]);
      rewrite HC;
      unfold prepend, entry_events, delay_events, count;
      destruct (Qpositive click_delay);
      repeat split; reflexivity.
Qed.

End CascadeProperties.

(** The control found disabled: nothing but the three reads and the log
    line happen. *)
Lemma cascade_disabled_short_circuit_witness :
  click_button (B := scripted (with_enabled base_script (fun _ => Ok false)))
    accept_btn "Accept" 0 0%nat
  = (Ok false, 3%nat,
     [EvExists accept_btn (Ok true); EvName accept_btn;
      EvPrint "Found Accept button: Accept"; EvIsEnabled accept_btn (Ok false)])
  /\ strategy_calls
       (events (click_button
                  (B := scripted (with_enabled base_script (fun _ => Ok false)))
                  accept_btn "Accept" 0 0%nat)) = []
  /\ count is_Sleep
       (events (click_button
                  (B := scripted (with_enabled base_script (fun _ => Ok false)))
                  accept_btn "Accept" 0 0%nat)) = 0%nat.
Proof.
  apply (cascade_disabled_short_circuit
           (B := scripted (with_enabled base_script (fun _ => Ok false)))
           accept_btn "Accept" 0 0%nat 1%nat 2%nat 3%nat "Accept"); reflexivity.
Defined.

(** The same control is gone on the second look: [main] saw the Confirm
    button at tick 8, the cascade entered at tick 9 does not. *)
Lemma cascade_not_found_witness :
  be_Exists (Backend := scripted ghost_script) confirm_btn 8%nat = (Ok true, 9%nat)
  /\ click_button (B := scripted ghost_script) confirm_btn "Confirm" 0 9%nat
     = (Ok false, 10%nat, [EvExists confirm_btn (Ok false)])
  /\ strategy_calls
       (events (click_button (B := scripted ghost_script)
                  confirm_btn "Confirm" 0 9%nat)) = [].
Proof.
  split; [reflexivity|].
  apply (cascade_not_found (B := scripted ghost_script)
           confirm_btn "Confirm" 0 9%nat 10%nat).
  reflexivity.
Defined.


(** C4.  The settle delay is missing after the third strategy.  On a
    control where [Invoke] raises and no legacy pattern is available, the
    physical click succeeds and [click_button] returns [True] right after
    its log line: the run contains no [time.sleep] at all, whereas a
    success of the first or of the second strategy is followed by
    [time.sleep(0.5)]. *)
Theorem physical_click_has_no_settle_delay :
  click_button (B := scripted click_only_script) accept_btn "Accept" 0 0%nat
  = (Ok true, 6%nat,
     [EvExists accept_btn (Ok true); EvName accept_btn;
      EvPrint "Found Accept button: Accept"; EvIsEnabled accept_btn (Ok true);
      EvInvoke accept_btn; EvPrint "Invoke failed: no InvokePattern";
      EvGetLegacyIAccessiblePattern accept_btn;
      EvClick accept_btn;
      EvPrint "Fallback: Accept button physical click used (Mouse Moved)"])
  /\ count is_Sleep
       (events (click_button (B := scripted click_only_script)
                  accept_btn "Accept" 0 0%nat)) = 0%nat
  /\ last (events (click_button (B := scripted base_script)
                     accept_btn "Accept" 0 0%nat)) EvGetChildren
     = EvSleep half_second
  /\ last (events (click_button (B := scripted legacy_script)
                     accept_btn "Accept" 0 0%nat)) EvGetChildren
     = EvSleep half_second.
Proof. repeat split; reflexivity. Qed.

(** C3.  The existence and the enabled flag of the control are not
    verified again after the pre-click delay.  With [--delay 1], on a
    control that is there when the cascade is entered and gone afterwards,
    [click_button] makes its two checks, sleeps one second and calls
    [Invoke] on the handle without a new check, although an existence
    check made at that moment answers false.  [main] does check again
    after its own settle sleep: when the Confirm button is not there after
    that sleep, the check answers false and the button is not acted on. *)
Theorem pre_click_delay_is_not_followed_by_a_check :
  click_button (B := scripted vanishing_script) accept_btn "Accept" 1 0%nat
  = (Ok true, 4%nat,
     [EvExists accept_btn (Ok true); EvName accept_btn;
      EvPrint "Found Accept button: Accept"; EvIsEnabled accept_btn (Ok true);
      EvSleep 1;
      EvInvoke accept_btn;
      EvPrint "Success: Accept button invoked via UIA Pattern!";
      EvSleep half_second])
  /\ be_Exists (Backend := scripted vanishing_script) accept_btn 3%nat
     = (Ok false, 4%nat)
  /\ cycle (B := scripted accept_only_script) default_config 0%nat
     = (Ok tt, 9%nat,
        [EvGetChildren;
         EvClassName win1 (Ok "Chrome_WidgetWin_1");
         EvButtonControl win1 15 "Accept.*";
         EvExists accept_btn (Ok true); EvName accept_btn;
         EvPrint "Found Accept button: Accept";
         EvIsEnabled accept_btn (Ok true);
         EvInvoke accept_btn;
         EvPrint "Success: Accept button invoked via UIA Pattern!";
         EvSleep half_second;
         EvSleep half_second;
         EvButtonControl win1 15 "Confirm.*";
         EvExists confirm_btn (Ok false);
         EvSleep half_second]).
Proof. repeat split; reflexivity. Qed.

(** ** The watch loop *)

Section Traces.

Lemma Window_eqb_refl (w : Window) : Window_eqb w w = true.
Proof. destruct w as [n]. apply Nat.eqb_refl. Qed.

Lemma count_app (p : event -> bool) (t1 t2 : trace) :
  count p (t1 ++ t2) = (count p t1 + count p t2)%nat.
Proof. unfold count. rewrite filter_app, length_app. reflexivity. Qed.

Lemma cascade_events_no_search (t : trace) :
  forallb is_cascade_event t = true -> count is_search t = 0%nat.
Proof.
  induction t as [|ev t IH]; intros H; [reflexivity|].
  cbn in H. apply andb_true_iff in H. destruct H as [Hev Ht].
  unfold count in *. cbn. destruct ev; cbn in *; try discriminate; auto.
Qed.

Lemma searches_guarded_cascade (cur : option Window) (t t' : trace) :
  forallb is_cascade_event t = true ->
  searches_guarded cur (t ++ t') = searches_guarded cur t'.
Proof.
  induction t as [|ev t IH]; intros H; [reflexivity|].
  cbn in H. apply andb_true_iff in H. destruct H as [Hev Ht].
  destruct ev; cbn in *; try discriminate; auto.
Qed.

Lemma searches_guarded_cascade_only (cur : option Window) (t : trace) :
  forallb is_cascade_event t = true -> searches_guarded cur t = true.
Proof.
  intros H. rewrite <- (app_nil_r t).
  rewrite searches_guarded_cascade by assumption. reflexivity.
Qed.

Lemma searches_guarded_app (cur : option Window) (t t' : trace) :
  searches_guarded cur (t ++ t')
  = searches_guarded cur t && searches_guarded (target_after cur t) t'.
Proof.
  revert cur. induction t as [|ev t IH]; intros cur; [reflexivity|].
  destruct ev; cbn; rewrite ?IH; try reflexivity.
  rewrite andb_assoc. reflexivity.
Qed.

End Traces.

Section LoopEquations.

Context {W : Type} {B : Backend W}.

Lemma prepend_prepend {A} (t1 t2 : trace) (x : result A * W * trace) :
  prepend t1 (prepend t2 x) = prepend (t1 ++ t2) x.
Proof. unfold prepend, outcome, world, events. cbn. rewrite app_assoc. reflexivity. Qed.

(** Every event of the cascade is a call on the control, a sleep or a
    log line: the cascade neither enumerates windows nor searches. *)
Lemma click_button_events (button : Control) (button_type : string)
  (click_delay : Q) (w : W) :
  forallb is_cascade_event (events (click_button button button_type click_delay w))
  = true.
Proof. unfold_cascade. case_answers; reflexivity. Qed.

Lemma for_windows_cons (args : Config) (window : Window) (rest : list Window) :
  for_windows args (window :: rest)
  = (f <- window_body args window ;;
     match f with
     | Break => ret Break
     | Next => for_windows args rest
     end).
Proof. reflexivity. Qed.

(** Windows that the loop passes without a [break] only add their events
    in front of what the rest of the loop does. *)
Lemma for_windows_app (args : Config) (pre rest : list Window) (w w0 : W) (t0 : trace) :
  for_windows args pre w = (Ok Next, w0, t0) ->
  for_windows args (pre ++ rest) w = prepend t0 (for_windows args rest w0).
Proof.
  revert w t0. induction pre as [|p pre IH]; intros w t0 H.
  - cbn in H. unfold ret in H. inversion H; subst. cbn.
    rewrite (surjective_run (for_windows args rest w0)) at 1. reflexivity.
  - cbn [app]. rewrite for_windows_cons in *. unfold bind in *.
    destruct (window_body args p w) as [[[[|]|e] w'] t'].
    + destruct (for_windows args pre w') as [[r1 w1] t1] eqn:Hpre.
      inversion H; subst.
      rewrite (IH _ _ Hpre). unfold prepend, outcome, world, events; cbn.
      rewrite app_assoc. reflexivity.
    + cbn in H. inversion H.
    + inversion H.
Qed.

(** A window of another class is passed over after the class read. *)
Lemma window_body_other_class (args : Config) (window : Window) (cls : string)
  (w w1 : W) :
  be_ClassName window w = (Ok cls, w1) ->
  String.eqb cls "Chrome_WidgetWin_1" = false ->
  window_body args window w = (Ok Next, w1, [EvClassName window (Ok cls)]).
Proof.
  intros HC Hne. unfold window_body, ClassName, call, bind, ret.
  rewrite HC, Hne. reflexivity.
Qed.

(** A window of the target class: the class read, the search for the
    Accept button, then the Accept cascade and what follows it. *)
Lemma window_body_target (args : Config) (window : Window) (accept_button : Control)
  (w w1 w2 : W) :
  be_ClassName window w = (Ok "Chrome_WidgetWin_1", w1) ->
  be_ButtonControl window 15 (accept_pattern args) w1 = (Ok accept_button, w2) ->
  window_body args window w
  = prepend [EvClassName window (Ok "Chrome_WidgetWin_1");
             EvButtonControl window 15 (accept_pattern args)]
      ((accepted <- click_button accept_button "Accept" (click_delay args) ;;
        if accepted then
          sleep half_second ;;
          confirm_button <- ButtonControl window 15 (confirm_pattern args) ;;
          found <- Exists confirm_button ;;
          (if found
           then (_ <- click_button confirm_button "Confirm" (click_delay args) ;;
                 ret tt)
           else ret tt) ;;
          ret Break
        else
          confirm_button <- ButtonControl window 15 (confirm_pattern args) ;;
          confirmed <- click_button confirm_button "Confirm" (click_delay args) ;;
          if confirmed then ret Break else ret Next) w2).
Proof.
  intros HC HS. unfold window_body.
  erewrite bind_Ok by (apply call_run; eassumption).
  cbn [String.eqb Ascii.eqb Bool.eqb negb].
  erewrite bind_Ok by (apply call_run; eassumption).
  rewrite prepend_prepend. reflexivity.
Qed.

Lemma cycle_body_run (args : Config) (windows : list Window) (w w1 : W) :
  be_GetChildren w = (Ok windows, w1) ->
  cycle_body args w
  = (match outcome (for_windows args windows w1) with
     | Ok _ => Ok tt
     | Raise e => Raise e
     end,
     world (for_windows args windows w1),
     EvGetChildren :: events (for_windows args windows w1)).
Proof.
  intros HG. unfold cycle_body, GetChildren, call, bind, ret. rewrite HG.
  destruct (for_windows args windows w1) as [[[f|e] w2] t]; cbn;
    rewrite ?app_nil_r; reflexivity.
Qed.

(** One iteration of [while True], from what its [try] block does. *)
Lemma cycle_run (args : Config) (w : W) :
  cycle args w
  = (absorbed (outcome (cycle_body args w)),
     world (cycle_body args w),
     events (cycle_body args w) ++ poll_sleep (outcome (cycle_body args w))).
Proof.
  unfold cycle, try_except, bind, sleep, emit, ret.
  destruct (cycle_body args w) as [[[[]|[msg|]] w1] t]; cbn;
    rewrite ?app_nil_r; reflexivity.
Qed.

End LoopEquations.

Section WatchLoop.

Context {W : Type} {B : Backend W}.

(** What the loop does at a window of the target class once the Accept
    cascade has returned [True]. *)
Lemma for_windows_accepted (args : Config) (pre rest : list Window) (window : Window)
  (w w0 w1 w2 w3 w4 w5 wc : W) (t0 t3 tc : trace)
  (accept_button confirm_button : Control) (found : bool) (rc : result bool) :
  for_windows args pre w = (Ok Next, w0, t0) ->
  be_ClassName window w0 = (Ok "Chrome_WidgetWin_1", w1) ->
  be_ButtonControl window 15 (accept_pattern args) w1 = (Ok accept_button, w2) ->
  click_button accept_button "Accept" (click_delay args) w2 = (Ok true, w3, t3) ->
  be_ButtonControl window 15 (confirm_pattern args) w3 = (Ok confirm_button, w4) ->
  be_Exists confirm_button w4 = (Ok found, w5) ->
  (if found
   then click_button confirm_button "Confirm" (click_delay args) w5
   else (Ok false, w5, [])) = (rc, wc, tc) ->
  for_windows args (pre ++ window :: rest) w
  = (match rc with Ok _ => Ok Break | Raise e => Raise e end,
     wc,
     t0 ++ [EvClassName window (Ok "Chrome_WidgetWin_1");
            EvButtonControl window 15 (accept_pattern args)]
        ++ t3
        ++ [EvSleep half_second;
            EvButtonControl window 15 (confirm_pattern args);
            EvExists confirm_button (Ok found)]
        ++ tc).
Proof.
  intros Hpre HC HS HA HS' HE Hc.
  rewrite (for_windows_app args pre (window :: rest) w w0 t0 Hpre).
  rewrite for_windows_cons.
  unfold bind at 1.
  rewrite (window_body_target args window accept_button w0 w1 w2 HC HS).
  erewrite bind_Ok by eassumption.
  unfold sleep, emit, ButtonControl, Exists, call, bind, ret.
  rewrite HS', HE.
  destruct found.
  - unfold bind in Hc. cbn. rewrite Hc.
    destruct rc as [b|e]; cbn; rewrite ?app_nil_r; reflexivity.
  - inversion Hc; subst. cbn. unfold prepend, outcome, world, events; cbn.
    rewrite ?app_nil_r. reflexivity.
Qed.

(** C6.  In a cycle where the Accept cascade returned [True] at a window
    of the target class, the cycle goes on, in this order, with the
    settle sleep of half a second, one search of the same window for the
    Confirm pattern, the existence check of what was found and, when it
    exists, the Confirm cascade; there is no further search before the
    cycle ends (the [for] loop is left by [break]).  When the Confirm
    control does not exist, the cycle ends normally with the poll sleep:
    nothing is raised and nothing is printed. *)
Theorem accept_success_then_confirm_search (args : Config)
  (pre rest : list Window) (window : Window)
  (wstart w w0 w1 w2 w3 w4 w5 wc : W) (t0 t3 tc : trace)
  (accept_button confirm_button : Control) (found : bool) (rc : result bool) :
  be_GetChildren wstart = (Ok (pre ++ window :: rest), w) ->
  for_windows args pre w = (Ok Next, w0, t0) ->
  be_ClassName window w0 = (Ok "Chrome_WidgetWin_1", w1) ->
  be_ButtonControl window 15 (accept_pattern args) w1 = (Ok accept_button, w2) ->
  click_button accept_button "Accept" (click_delay args) w2 = (Ok true, w3, t3) ->
  be_ButtonControl window 15 (confirm_pattern args) w3 = (Ok confirm_button, w4) ->
  be_Exists confirm_button w4 = (Ok found, w5) ->
  (if found
   then click_button confirm_button "Confirm" (click_delay args) w5
   else (Ok false, w5, [])) = (rc, wc, tc) ->
  cycle args wstart
  = (absorbed rc, wc,
     EvGetChildren
       :: t0
       ++ [EvClassName window (Ok "Chrome_WidgetWin_1");
           EvButtonControl window 15 (accept_pattern args)]
       ++ t3
       ++ [EvSleep half_second;
           EvButtonControl window 15 (confirm_pattern args);
           EvExists confirm_button (Ok found)]
       ++ tc ++ poll_sleep rc)
  /\ count is_search
       ([EvSleep half_second;
         EvButtonControl window 15 (confirm_pattern args);
         EvExists confirm_button (Ok found)]
          ++ tc ++ poll_sleep rc) = 1%nat
  /\ (found = false ->
      absorbed rc = Ok tt /\ tc ++ poll_sleep rc = [EvSleep half_second]).
Proof.
  intros HG Hpre HC HS HA HS' HE Hc.
  pose proof (for_windows_accepted args pre rest window w w0 w1 w2 w3 w4 w5 wc
                t0 t3 tc accept_button confirm_button found rc
                Hpre HC HS HA HS' HE Hc) as Hfor.
  split; [|split].
  - rewrite cycle_run.
    rewrite (cycle_body_run args (pre ++ window :: rest) wstart w HG).
    rewrite Hfor. unfold outcome, world, events; cbn [fst snd].
    destruct rc as [b|[msg|]]; cbn [absorbed poll_sleep];
      repeat (rewrite <- ?app_assoc; cbn [app]); reflexivity.
  - rewrite !count_app.
    assert (Htc : count is_search tc = 0%nat).
    { destruct found.
      - apply cascade_events_no_search.
        pose proof (click_button_events confirm_button "Confirm"
                      (click_delay args) w5) as Hev.
        rewrite Hc in Hev. exact Hev.
      - inversion Hc; subst. reflexivity. }
    rewrite Htc. destruct rc as [b|[msg|]]; reflexivity.
  - intros ->. inversion Hc; subst. split; reflexivity.
Qed.

(** On a control that exists and is enabled the cascade makes exactly one
    [Invoke] call, and it is its first strategy call. *)
Lemma click_button_invokes_once (button : Control) (button_type : string)
  (click_delay : Q) (w w1 w2 w3 : W) (name : string) :
  be_Exists button w = (Ok true, w1) ->
  be_Name button w1 = (Ok name, w2) ->
  be_IsEnabled button w2 = (Ok true, w3) ->
  delay_accepted click_delay = true ->
  hd_error (strategy_calls (events (click_button button button_type click_delay w)))
  = Some (EvInvoke button)
  /\ count is_Invoke (events (click_button button button_type click_delay w)) = 1%nat.
Proof.
  intros HE HN HI Hd.
  rewrite (click_button_enabled button button_type click_delay w w1 w2 w3 name
             HE HN HI Hd).
  unfold method1, method2, method3, entry_events, delay_events, found_line,
    prepend, strategy_calls, count.
  unfold_calls. case_answers; split; reflexivity.
Qed.

(** C7.  In a cycle where the Accept cascade returned [False] at a window
    of the target class (no Accept control, or none that could be
    activated), the loop searches the same window for the Confirm
    pattern and runs the cascade on what the search gives; the cascade
    itself checks that the control exists.  When the Confirm cascade
    returns [True] the cycle ends there; when it returns [False] the loop
    goes on with the next window.  On a Confirm control that exists and
    is enabled, and with a pre-click delay that [time.sleep] accepts, the
    cascade makes one [Invoke] call on it. *)
Theorem confirm_alone_when_accept_fails (args : Config)
  (pre rest : list Window) (window : Window)
  (wstart w w0 w1 w2 w3 w4 wc : W) (t0 t3 tc : trace)
  (accept_button confirm_button : Control) (rc : result bool) :
  be_GetChildren wstart = (Ok (pre ++ window :: rest), w) ->
  for_windows args pre w = (Ok Next, w0, t0) ->
  be_ClassName window w0 = (Ok "Chrome_WidgetWin_1", w1) ->
  be_ButtonControl window 15 (accept_pattern args) w1 = (Ok accept_button, w2) ->
  click_button accept_button "Accept" (click_delay args) w2 = (Ok false, w3, t3) ->
  be_ButtonControl window 15 (confirm_pattern args) w3 = (Ok confirm_button, w4) ->
  click_button confirm_button "Confirm" (click_delay args) w4 = (rc, wc, tc) ->
  for_windows args (pre ++ window :: rest) w
  = prepend (t0 ++ [EvClassName window (Ok "Chrome_WidgetWin_1");
                    EvButtonControl window 15 (accept_pattern args)]
                ++ t3
                ++ [EvButtonControl window 15 (confirm_pattern args)]
                ++ tc)
      (match rc with
       | Ok true => (Ok Break, wc, [])
       | Ok false => for_windows args rest wc
       | Raise e => (Raise e, wc, [])
       end)
  /\ (rc = Ok true ->
      cycle args wstart
      = (Ok tt, wc,
         EvGetChildren
           :: t0
           ++ [EvClassName window (Ok "Chrome_WidgetWin_1");
               EvButtonControl window 15 (accept_pattern args)]
           ++ t3
           ++ [EvButtonControl window 15 (confirm_pattern args)]
           ++ tc ++ [EvSleep half_second]))
  /\ (forall w5 w6 w7 name,
         be_Exists confirm_button w4 = (Ok true, w5) ->
         be_Name confirm_button w5 = (Ok name, w6) ->
         be_IsEnabled confirm_button w6 = (Ok true, w7) ->
         delay_accepted (click_delay args) = true ->
         hd_error (strategy_calls tc) = Some (EvInvoke confirm_button)
         /\ count is_Invoke tc = 1%nat).
Proof.
  intros HG Hpre HC HS HA HS' Hc.
  assert (Hfor :
            for_windows args (pre ++ window :: rest) w
            = prepend (t0 ++ [EvClassName window (Ok "Chrome_WidgetWin_1");
                              EvButtonControl window 15 (accept_pattern args)]
                          ++ t3
                          ++ [EvButtonControl window 15 (confirm_pattern args)]
                          ++ tc)
                (match rc with
                 | Ok true => (Ok Break, wc, [])
                 | Ok false => for_windows args rest wc
                 | Raise e => (Raise e, wc, [])
                 end)).
  { rewrite (for_windows_app args pre (window :: rest) w w0 t0 Hpre).
    rewrite for_windows_cons.
    unfold bind at 1.
    rewrite (window_body_target args window accept_button w0 w1 w2 HC HS).
    erewrite bind_Ok by eassumption.
    unfold ButtonControl, call, bind, ret.
    rewrite HS', Hc.
    destruct rc as [[|]|e]; unfold prepend, outcome, world, events; cbn;
      rewrite ?app_nil_r.
    - repeat (rewrite <- ?app_assoc; cbn [app]). reflexivity.
    - destruct (for_windows args rest wc) as [[r' w'] t']; cbn.
      repeat (rewrite <- ?app_assoc; cbn [app]). reflexivity.
    - repeat (rewrite <- ?app_assoc; cbn [app]). reflexivity. }
  split; [exact Hfor|split].
  - intros ->. rewrite cycle_run.
    rewrite (cycle_body_run args (pre ++ window :: rest) wstart w HG).
    rewrite Hfor. unfold prepend, outcome, world, events; cbn.
    rewrite ?app_nil_r.
    repeat (rewrite <- ?app_assoc; cbn [app]). reflexivity.
  - intros w5 w6 w7 name HE HN HI Hd.
    pose proof (click_button_invokes_once confirm_button "Confirm"
                  (click_delay args) w4 w5 w6 w7 name HE HN HI Hd) as Hinv.
    rewrite Hc in Hinv. exact Hinv.
Qed.

Ltac guarded_step Hcls :=
  repeat first
    [ rewrite searches_guarded_cascade by assumption
    | rewrite Window_eqb_refl
    | rewrite Hcls
    | rewrite app_nil_r
    | progress cbn [searches_guarded current_target app andb events outcome world
                      fst snd prepend]
    | rewrite searches_guarded_cascade_only by assumption ].

(** The searches of one pass of the loop body are on the window whose
    class the pass has just read as the target class. *)
Lemma window_body_guarded (args : Config) (window : Window) (w : W)
  (cur : option Window) :
  searches_guarded cur (events (window_body args window w)) = true.
Proof.
  unfold window_body, ClassName, ButtonControl, Exists, sleep, emit, call, bind, ret.
  destruct (be_ClassName window w) as [[cls|e] w1]; [|reflexivity].
  destruct (String.eqb cls "Chrome_WidgetWin_1") eqn:Hcls;
    [|reflexivity].
  cbn [negb].
  destruct (be_ButtonControl window 15 (accept_pattern args) w1) as [[ab|e] w2];
    [|guarded_step Hcls; reflexivity].
  pose proof (click_button_events ab "Accept" (click_delay args) w2) as Ha.
  destruct (click_button ab "Accept" (click_delay args) w2) as [[[[|]|e] w3] t3];
    cbn [events snd] in Ha; [| |guarded_step Hcls; reflexivity].
  - destruct (be_ButtonControl window 15 (confirm_pattern args) w3)
      as [[cb|e] w4]; [|guarded_step Hcls; reflexivity].
    destruct (be_Exists cb w4) as [[[|]|e] w5];
      [| guarded_step Hcls; reflexivity | guarded_step Hcls; reflexivity].
    pose proof (click_button_events cb "Confirm" (click_delay args) w5) as Hc.
    destruct (click_button cb "Confirm" (click_delay args) w5) as [[[b|e] w6] t6];
      cbn [events snd] in Hc; guarded_step Hcls; reflexivity.
  - destruct (be_ButtonControl window 15 (confirm_pattern args) w3)
      as [[cb|e] w4]; [|guarded_step Hcls; reflexivity].
    pose proof (click_button_events cb "Confirm" (click_delay args) w4) as Hc.
    destruct (click_button cb "Confirm" (click_delay args) w4)
      as [[[[|]|e] w6] t6];
      cbn [events snd] in Hc; guarded_step Hcls; reflexivity.
Qed.

Lemma for_windows_guarded (args : Config) (windows : list Window) (w : W)
  (cur : option Window) :
  searches_guarded cur (events (for_windows args windows w)) = true.
Proof.
  revert w cur. induction windows as [|window rest IH]; intros w cur;
    [reflexivity|].
  rewrite for_windows_cons. unfold bind, ret.
  pose proof (window_body_guarded args window w cur) as Hb.
  destruct (window_body args window w) as [[[[|]|e] w1] t1];
    cbn [events snd] in Hb; cbn [events snd].
  - specialize (IH w1 (target_after cur t1)).
    destruct (for_windows args rest w1) as [[r2 w2] t2]. cbn [events snd] in *.
    rewrite searches_guarded_app, Hb, IH. reflexivity.
  - rewrite app_nil_r. exact Hb.
  - exact Hb.
Qed.

Lemma cycle_guarded (args : Config) (w : W) (cur : option Window) :
  searches_guarded cur (events (cycle args w)) = true.
Proof.
  rewrite cycle_run. cbn [events snd].
  rewrite searches_guarded_app.
  assert (Hb : searches_guarded cur (events (cycle_body args w)) = true).
  { destruct (be_GetChildren w) as [[ws|e] w1] eqn:HG.
    - rewrite (cycle_body_run args ws w w1 HG). cbn [events snd searches_guarded].
      apply for_windows_guarded.
    - unfold cycle_body, GetChildren, call, bind. rewrite HG. reflexivity. }
  rewrite Hb.
  destruct (outcome (cycle_body args w)) as [u|[msg|]]; reflexivity.
Qed.

Lemma watch_loop_guarded (args : Config) (n : nat) (w : W) (cur : option Window) :
  searches_guarded cur (events (watch_loop args n w)) = true.
Proof.
  revert w cur. induction n as [|n IH]; intros w cur; [reflexivity|].
  cbn [watch_loop]. unfold bind.
  pose proof (cycle_guarded args w cur) as Hc.
  destruct (cycle args w) as [[[u|e] w1] t1]; cbn [events snd] in *.
  - specialize (IH w1 (target_after cur t1)).
    destruct (watch_loop args n w1) as [[r2 w2] t2]. cbn [events snd] in *.
    rewrite searches_guarded_app, Hc, IH. reflexivity.
  - exact Hc.
Qed.

(** C9.  A top-level window whose class is not the target class is
    passed over entirely: the pass of the loop body consists of the class
    read alone (no search, and the name of the window is never read).
    Over any number of cycles, every subtree search is on the window
    whose class was read immediately before as the target class. *)
Theorem other_class_windows_never_searched (args : Config) :
  (forall (window : Window) (cls : string) (w w1 : W),
      be_ClassName window w = (Ok cls, w1) ->
      cls <> "Chrome_WidgetWin_1" ->
      window_body args window w = (Ok Next, w1, [EvClassName window (Ok cls)]))
  /\ (forall (n : nat) (w : W),
         searches_guarded None (events (watch_loop args n w)) = true).
Proof.
  split.
  - intros window cls w w1 HC Hne.
    apply window_body_other_class; [exact HC|].
    apply String.eqb_neq. exact Hne.
  - intros n w. apply watch_loop_guarded.
Qed.

(** Every iteration of [while True] starts with the enumeration of the
    top-level windows. *)
Lemma cycle_starts_with_enumeration (args : Config) (w : W) :
  exists t, events (cycle args w) = EvGetChildren :: t.
Proof.
  rewrite cycle_run. cbn [events snd].
  destruct (be_GetChildren w) as [[ws|e] w1] eqn:HG.
  - rewrite (cycle_body_run args ws w w1 HG). cbn [events snd outcome fst].
    eexists. reflexivity.
  - unfold cycle_body, GetChildren, call, bind. rewrite HG.
    eexists. reflexivity.
Qed.

Lemma watch_loop_starts_with_enumeration (args : Config) (n : nat) (w : W) :
  exists t, events (watch_loop args (S n) w) = EvGetChildren :: t.
Proof.
  cbn [watch_loop]. unfold bind.
  destruct (cycle_starts_with_enumeration args w) as [t Ht].
  destruct (cycle args w) as [[[u|e] w1] t1]; cbn [events snd] in *; subst t1.
  - destruct (watch_loop args n w1) as [[r2 w2] t2]. eexists. reflexivity.
  - eexists. reflexivity.
Qed.

(** An iteration whose [try] block raises an [Exception]: the handler is
    [pass], the iteration ends with the poll sleep. *)
Lemma cycle_Exception (args : Config) (w w1 : W) (t : trace) (msg : string) :
  cycle_body args w = (Raise (Exception msg), w1, t) ->
  cycle args w = (Ok tt, w1, t ++ [EvSleep half_second]).
Proof. intros H. rewrite cycle_run, H. reflexivity. Qed.

(** A pass of the loop body that meets an [Exception] raises it: nothing
    in the body catches it. *)
Lemma body_error_raises (args : Config) (window : Window) (w w' : W)
  (t : trace) (msg : string) :
  body_error args window w w' t msg ->
  window_body args window w = (Raise (Exception msg), w', t).
Proof.
  intros H.
  destruct H as
    [ msg w1 HC
    | msg w1 w2 HC HS
    | msg w1 w2 w3 ab t3 HC HS HA
    | msg w1 w2 w3 w4 ab t3 HC HS HA HS'
    | msg w1 w2 w3 w4 w5 ab cb t3 HC HS HA HS' HE
    | msg w1 w2 w3 w4 w5 w6 ab cb t3 t6 HC HS HA HS' HE HK
    | msg w1 w2 w3 w4 ab t3 HC HS HA HS'
    | msg w1 w2 w3 w4 w5 ab cb t3 t5 HC HS HA HS' HK ].
  - unfold window_body, ClassName, call, bind. rewrite HC. reflexivity.
  - unfold window_body, ClassName, ButtonControl, call, bind. rewrite HC.
    cbn [String.eqb Ascii.eqb Bool.eqb negb]. rewrite HS. reflexivity.
  - rewrite (window_body_target args window ab w w1 w2 HC HS).
    erewrite bind_Raise by eassumption. reflexivity.
  - rewrite (window_body_target args window ab w w1 w2 HC HS).
    erewrite bind_Ok by eassumption.
    unfold sleep, emit, ButtonControl, call, bind, ret. rewrite HS'.
    unfold prepend, outcome, world, events; cbn [fst snd app].
    repeat (rewrite <- ?app_assoc; cbn [app]). reflexivity.
  - rewrite (window_body_target args window ab w w1 w2 HC HS).
    erewrite bind_Ok by eassumption.
    unfold sleep, emit, ButtonControl, Exists, call, bind, ret. rewrite HS', HE.
    unfold prepend, outcome, world, events; cbn [fst snd app].
    repeat (rewrite <- ?app_assoc; cbn [app]). reflexivity.
  - rewrite (window_body_target args window ab w w1 w2 HC HS).
    erewrite bind_Ok by eassumption.
    unfold sleep, emit, ButtonControl, Exists, call, bind, ret.
    rewrite HS', HE, HK.
    unfold prepend, outcome, world, events; cbn [fst snd app].
    repeat (rewrite <- ?app_assoc; cbn [app]). reflexivity.
  - rewrite (window_body_target args window ab w w1 w2 HC HS).
    erewrite bind_Ok by eassumption.
    unfold ButtonControl, call, bind, ret. rewrite HS'.
    unfold prepend, outcome, world, events; cbn [fst snd app].
    repeat (rewrite <- ?app_assoc; cbn [app]). reflexivity.
  - rewrite (window_body_target args window ab w w1 w2 HC HS).
    erewrite bind_Ok by eassumption.
    unfold ButtonControl, call, bind, ret. rewrite HS', HK.
    unfold prepend, outcome, world, events; cbn [fst snd app].
    repeat (rewrite <- ?app_assoc; cbn [app]). reflexivity.
Qed.

(** After an iteration that ended normally the next one runs: it starts
    with a new enumeration of the windows. *)
Lemma next_cycle_runs (args : Config) (w w1 : W) (t : trace) :
  cycle args w = (Ok tt, w1, t) ->
  forall n, exists t', events (watch_loop args (S (S n)) w) = t ++ EvGetChildren :: t'.
Proof.
  intros Hc n.
  destruct (watch_loop_starts_with_enumeration args n w1) as [t' Ht'].
  exists t'.
  change (watch_loop args (S (S n)) w)
    with (bind (cycle args) (fun _ => watch_loop args (S n)) w).
  rewrite (bind_Ok (cycle args) (fun _ => watch_loop args (S n)) w tt w1 _ Hc).
  unfold prepend. cbn [events snd]. rewrite Ht'. reflexivity.
Qed.

Lemma click_button_Exists_raises (button : Control) (button_type : string)
  (click_delay : Q) (w w1 : W) (e : exn) :
  be_Exists button w = (Raise e, w1) ->
  click_button button button_type click_delay w
  = (Raise e, w1, [EvExists button (Raise e)]).
Proof. intros HE. unfold_cascade. rewrite HE. reflexivity. Qed.

Lemma click_button_Name_raises (button : Control) (button_type : string)
  (click_delay : Q) (w w1 w2 : W) (e : exn) :
  be_Exists button w = (Ok true, w1) ->
  be_Name button w1 = (Raise e, w2) ->
  click_button button button_type click_delay w
  = (Raise e, w2, [EvExists button (Ok true); EvName button]).
Proof. intros HE HN. unfold_cascade. rewrite HE. cbn. rewrite HN. reflexivity. Qed.

Lemma click_button_IsEnabled_raises (button : Control) (button_type : string)
  (click_delay : Q) (w w1 w2 w3 : W) (name : string) (e : exn) :
  be_Exists button w = (Ok true, w1) ->
  be_Name button w1 = (Ok name, w2) ->
  be_IsEnabled button w2 = (Raise e, w3) ->
  click_button button button_type click_delay w
  = (Raise e, w3,
     [EvExists button (Ok true); EvName button;
      EvPrint (found_line button_type name);
      EvIsEnabled button (Raise e)]).
Proof.
  intros HE HN HI. unfold_cascade. rewrite HE. cbn. rewrite HN. unfold found_line.
  destruct (be_printable name); cbn; rewrite HI; reflexivity.
Qed.

(** C5, amended.  An [Exception] raised while the backend is queried in a
    cycle is caught at the cycle boundary and discarded: the handler is
    [pass], so that nothing is printed for it.  This holds for the
    enumeration of the windows and, at any window of the list, for the
    class read, for either subtree search, for the existence check of the
    Confirm button and for an exception that leaves either cascade (as the
    reads of the control at its head make it).  The cycle ends normally
    with the poll sleep, the windows after the failing one are not
    processed, and the loop goes on: its next iteration runs and starts
    with a new enumeration. *)
Theorem cycle_errors_absorbed_silently (args : Config) :
  (forall (w w1 : W) (msg : string),
      be_GetChildren w = (Raise (Exception msg), w1) ->
      cycle args w = (Ok tt, w1, [EvGetChildren; EvSleep half_second])
      /\ (forall n, exists t',
             events (watch_loop args (S (S n)) w)
             = [EvGetChildren; EvSleep half_second] ++ EvGetChildren :: t'))
  /\ (forall (pre rest : list Window) (window : Window)
             (wstart w w0 w1 : W) (t0 t : trace) (msg : string),
         be_GetChildren wstart = (Ok (pre ++ window :: rest), w) ->
         for_windows args pre w = (Ok Next, w0, t0) ->
         body_error args window w0 w1 t msg ->
         cycle args wstart
         = (Ok tt, w1, EvGetChildren :: t0 ++ t ++ [EvSleep half_second])
         /\ (forall n, exists t',
                events (watch_loop args (S (S n)) wstart)
                = (EvGetChildren :: t0 ++ t ++ [EvSleep half_second])
                    ++ EvGetChildren :: t'))
  /\ (forall (button : Control) (button_type : string) (click_delay : Q)
             (w w1 : W) (msg : string),
         be_Exists button w = (Raise (Exception msg), w1) ->
         click_button button button_type click_delay w
         = (Raise (Exception msg), w1, [EvExists button (Raise (Exception msg))]))
  /\ (forall (button : Control) (button_type : string) (click_delay : Q)
             (w w1 w2 : W) (msg : string),
         be_Exists button w = (Ok true, w1) ->
         be_Name button w1 = (Raise (Exception msg), w2) ->
         click_button button button_type click_delay w
         = (Raise (Exception msg), w2, [EvExists button (Ok true); EvName button]))
  /\ (forall (button : Control) (button_type : string) (click_delay : Q)
             (w w1 w2 w3 : W) (name msg : string),
         be_Exists button w = (Ok true, w1) ->
         be_Name button w1 = (Ok name, w2) ->
         be_IsEnabled button w2 = (Raise (Exception msg), w3) ->
         click_button button button_type click_delay w
         = (Raise (Exception msg), w3,
            [EvExists button (Ok true); EvName button;
             EvPrint (found_line button_type name);
             EvIsEnabled button (Raise (Exception msg))])).
Proof.
  split; [|split; [|split; [|split]]].
  - intros w w1 msg HG.
    assert (Hc : cycle args w = (Ok tt, w1, [EvGetChildren; EvSleep half_second])).
    { apply (cycle_Exception args w w1 [EvGetChildren] msg).
      unfold cycle_body, GetChildren, call, bind. rewrite HG. reflexivity. }
    split; [exact Hc|]. apply (next_cycle_runs args w w1 _ Hc).
  - intros pre rest window wstart w w0 w1 t0 t msg HG Hpre Herr.
    assert (Hc : cycle args wstart
                 = (Ok tt, w1,
                    EvGetChildren :: t0 ++ t ++ [EvSleep half_second])).
    { rewrite cycle_run.
      rewrite (cycle_body_run args (pre ++ window :: rest) wstart w HG).
      rewrite (for_windows_app args pre (window :: rest) w w0 t0 Hpre).
      rewrite for_windows_cons.
      erewrite bind_Raise by (apply body_error_raises; exact Herr).
      unfold prepend, outcome, world, events; cbn.
      repeat (rewrite <- ?app_assoc; cbn [app]). reflexivity. }
    split; [exact Hc|]. apply (next_cycle_runs args wstart w1 _ Hc).
  - intros. apply click_button_Exists_raises. assumption.
  - intros. apply click_button_Name_raises with (w1 := w1); assumption.
  - intros. apply click_button_IsEnabled_raises with (w1 := w1) (w2 := w2); assumption.
Qed.

(** The pass of the loop body in which the Accept cascade raises: the
    exception leaves the body, the Confirm search is not made. *)
Lemma window_body_cascade_raises (args : Config) (window : Window)
  (accept_button : Control) (w w1 w2 w3 : W) (t3 : trace) (e : exn) :
  be_ClassName window w = (Ok "Chrome_WidgetWin_1", w1) ->
  be_ButtonControl window 15 (accept_pattern args) w1 = (Ok accept_button, w2) ->
  click_button accept_button "Accept" (click_delay args) w2 = (Raise e, w3, t3) ->
  window_body args window w
  = (Raise e, w3,
     [EvClassName window (Ok "Chrome_WidgetWin_1");
      EvButtonControl window 15 (accept_pattern args)] ++ t3).
Proof.
  intros HC HS HA.
  rewrite (window_body_target args window accept_button w w1 w2 HC HS).
  erewrite bind_Raise by eassumption. reflexivity.
Qed.

(** C10.  The reads of the control at the head of [click_button] are not
    inside any of its [try] blocks.  When the existence check, the name
    read or the enabled-flag read raises, [click_button] raises the same
    exception, having called no strategy.  The exception leaves the pass
    of the loop body at that window and the [for] loop: the windows after
    it are not processed in that cycle.  It is caught only by the handler
    of the cycle, after which the poll sleep is made and the loop goes on
    with its next iteration. *)
Theorem property_read_errors_abort_the_cycle (args : Config) :
  (forall (button : Control) (button_type : string) (click_delay : Q)
          (w w1 : W) (e : exn),
      be_Exists button w = (Raise e, w1) ->
      click_button button button_type click_delay w
      = (Raise e, w1, [EvExists button (Raise e)]))
  /\ (forall (button : Control) (button_type : string) (click_delay : Q)
             (w w1 w2 : W) (e : exn),
         be_Exists button w = (Ok true, w1) ->
         be_Name button w1 = (Raise e, w2) ->
         click_button button button_type click_delay w
         = (Raise e, w2, [EvExists button (Ok true); EvName button]))
  /\ (forall (button : Control) (button_type : string) (click_delay : Q)
             (w w1 w2 w3 : W) (name : string) (e : exn),
         be_Exists button w = (Ok true, w1) ->
         be_Name button w1 = (Ok name, w2) ->
         be_IsEnabled button w2 = (Raise e, w3) ->
         click_button button button_type click_delay w
         = (Raise e, w3,
            [EvExists button (Ok true); EvName button;
             EvPrint (found_line button_type name);
             EvIsEnabled button (Raise e)]))
  /\ (forall (pre rest : list Window) (window : Window)
             (accept_button : Control)
             (wstart w w0 w1 w2 w3 : W) (t0 t3 : trace) (msg : string),
         be_GetChildren wstart = (Ok (pre ++ window :: rest), w) ->
         for_windows args pre w = (Ok Next, w0, t0) ->
         be_ClassName window w0 = (Ok "Chrome_WidgetWin_1", w1) ->
         be_ButtonControl window 15 (accept_pattern args) w1
         = (Ok accept_button, w2) ->
         click_button accept_button "Accept" (click_delay args) w2
         = (Raise (Exception msg), w3, t3) ->
         cycle args wstart
         = (Ok tt, w3,
            EvGetChildren
              :: t0
              ++ [EvClassName window (Ok "Chrome_WidgetWin_1");
                  EvButtonControl window 15 (accept_pattern args)]
              ++ t3 ++ [EvSleep half_second])
         /\ (forall n,
                watch_loop args (S n) wstart
                = prepend
                    (EvGetChildren
                       :: t0
                       ++ [EvClassName window (Ok "Chrome_WidgetWin_1");
                           EvButtonControl window 15 (accept_pattern args)]
                       ++ t3 ++ [EvSleep half_second])
                    (watch_loop args n w3))).
Proof.
  split; [|split; [|split]].
  - intros button button_type click_delay w w1 e HE.
    unfold_cascade. rewrite HE. reflexivity.
  - intros button button_type click_delay w w1 w2 e HE HN.
    unfold_cascade. rewrite HE. cbn. rewrite HN. reflexivity.
  - intros button button_type click_delay w w1 w2 w3 name e HE HN HI.
    unfold_cascade. rewrite HE. cbn. rewrite HN. unfold found_line.
    destruct (be_printable name); cbn; rewrite HI; reflexivity.
  - intros pre rest window accept_button wstart w w0 w1 w2 w3 t0 t3 msg
      HG Hpre HC HS HA.
    assert (Hc : cycle args wstart
                 = (Ok tt, w3,
                    EvGetChildren
                      :: t0
                      ++ [EvClassName window (Ok "Chrome_WidgetWin_1");
                          EvButtonControl window 15 (accept_pattern args)]
                      ++ t3 ++ [EvSleep half_second])).
    { rewrite cycle_run.
      rewrite (cycle_body_run args (pre ++ window :: rest) wstart w HG).
      rewrite (for_windows_app args pre (window :: rest) w w0 t0 Hpre).
      rewrite for_windows_cons.
      erewrite bind_Raise
        by (apply (window_body_cascade_raises args window accept_button
                     w0 w1 w2 w3 t3 (Exception msg) HC HS HA)).
      unfold prepend, outcome, world, events; cbn.
      repeat (rewrite <- ?app_assoc; cbn [app]). reflexivity. }
    split; [exact Hc|].
    intros n. cbn [watch_loop].
    apply (bind_Ok (cycle args) (fun _ => watch_loop args n)
             wstart tt w3 _ Hc).
Qed.

End WatchLoop.

(** ** Concrete runs *)

(** The events of the Accept cascade and of the Confirm cascade when the
    first strategy works. *)
Lemma accept_success_then_confirm_search_witness :
  (cycle (B := scripted base_script) default_config 0%nat
   = (Ok tt, 13%nat,
      [EvGetChildren;
       EvClassName win1 (Ok "Chrome_WidgetWin_1");
       EvButtonControl win1 15 "Accept.*";
       EvExists accept_btn (Ok true); EvName accept_btn;
       EvPrint "Found Accept button: Accept";
       EvIsEnabled accept_btn (Ok true);
       EvInvoke accept_btn;
       EvPrint "Success: Accept button invoked via UIA Pattern!";
       EvSleep half_second;
       EvSleep half_second;
       EvButtonControl win1 15 "Confirm.*";
       EvExists confirm_btn (Ok true);
       EvExists confirm_btn (Ok true); EvName confirm_btn;
       EvPrint "Found Confirm button: Confirm";
       EvIsEnabled confirm_btn (Ok true);
       EvInvoke confirm_btn;
       EvPrint "Success: Confirm button invoked via UIA Pattern!";
       EvSleep half_second;
       EvSleep half_second]))
  /\ (cycle (B := scripted accept_only_script) default_config 0%nat
      = (Ok tt, 9%nat,
         [EvGetChildren;
          EvClassName win1 (Ok "Chrome_WidgetWin_1");
          EvButtonControl win1 15 "Accept.*";
          EvExists accept_btn (Ok true); EvName accept_btn;
          EvPrint "Found Accept button: Accept";
          EvIsEnabled accept_btn (Ok true);
          EvInvoke accept_btn;
          EvPrint "Success: Accept button invoked via UIA Pattern!";
          EvSleep half_second;
          EvSleep half_second;
          EvButtonControl win1 15 "Confirm.*";
          EvExists confirm_btn (Ok false);
          EvSleep half_second])).
Proof.
  split.
  - exact (proj1 (accept_success_then_confirm_search (B := scripted base_script)
                    default_config [] [] win1
                    0%nat 1%nat 1%nat 2%nat 3%nat 7%nat 8%nat 9%nat 13%nat
                    []
                    (events (click_button (B := scripted base_script)
                               accept_btn "Accept" 0 3%nat))
                    (events (click_button (B := scripted base_script)
                               confirm_btn "Confirm" 0 9%nat))
                    accept_btn confirm_btn true (Ok true)
                    eq_refl eq_refl eq_refl eq_refl eq_refl eq_refl eq_refl eq_refl)).
  - exact (proj1 (accept_success_then_confirm_search
                    (B := scripted accept_only_script)
                    default_config [] [] win1
                    0%nat 1%nat 1%nat 2%nat 3%nat 7%nat 8%nat 9%nat 9%nat
                    []
                    (events (click_button (B := scripted accept_only_script)
                               accept_btn "Accept" 0 3%nat))
                    []
                    accept_btn confirm_btn false (Ok false)
                    eq_refl eq_refl eq_refl eq_refl eq_refl eq_refl eq_refl eq_refl)).
Defined.

(** The scenario of a dialog with a Confirm button only: one window of the
    target class, no Accept control, one enabled Confirm control. *)
Lemma confirm_alone_when_accept_fails_witness :
  cycle (B := scripted confirm_only_script) default_config 0%nat
  = (Ok tt, 9%nat,
     [EvGetChildren;
      EvClassName win1 (Ok "Chrome_WidgetWin_1");
      EvButtonControl win1 15 "Accept.*";
      EvExists accept_btn (Ok false);
      EvButtonControl win1 15 "Confirm.*";
      EvExists confirm_btn (Ok true); EvName confirm_btn;
      EvPrint "Found Confirm button: Confirm";
      EvIsEnabled confirm_btn (Ok true);
      EvInvoke confirm_btn;
      EvPrint "Success: Confirm button invoked via UIA Pattern!";
      EvSleep half_second;
      EvSleep half_second])
  /\ count is_Invoke
       (events (click_button (B := scripted confirm_only_script)
                  confirm_btn "Confirm" 0 5%nat)) = 1%nat.
Proof.
  pose proof (confirm_alone_when_accept_fails (B := scripted confirm_only_script)
                default_config [] [] win1
                0%nat 1%nat 1%nat 2%nat 3%nat 4%nat 5%nat 9%nat
                []
                (events (click_button (B := scripted confirm_only_script)
                           accept_btn "Accept" 0 3%nat))
                (events (click_button (B := scripted confirm_only_script)
                           confirm_btn "Confirm" 0 5%nat))
                accept_btn confirm_btn (Ok true)
                eq_refl eq_refl eq_refl eq_refl eq_refl eq_refl eq_refl)
    as [_ [Hcycle Hinvoke]].
  split.
  - exact (Hcycle eq_refl).
  - exact (proj2 (Hinvoke 6%nat 7%nat 8%nat "Confirm"
                    eq_refl eq_refl eq_refl eq_refl)).
Defined.

(** A tray window in front of the target window: it is passed over,
    and the searches of the cycle are on the target window. *)
Lemma other_class_windows_never_searched_witness :
  window_body (B := scripted other_class_script) default_config win2 1%nat
  = (Ok Next, 2%nat, [EvClassName win2 (Ok "Shell_TrayWnd")])
  /\ searches_guarded None
       (events (watch_loop (B := scripted other_class_script) default_config 1 0%nat))
     = true.
Proof.
  split.
  - apply (proj1 (other_class_windows_never_searched
                    (B := scripted other_class_script) default_config)
             win2 "Shell_TrayWnd" 1%nat 2%nat).
    + reflexivity.
    + intros H. discriminate H.
  - apply (proj2 (other_class_windows_never_searched
                    (B := scripted other_class_script) default_config)).
Defined.

(** C5, as stated, fails: the enumeration raises, the cycle absorbs the
    error, and no line is printed for it. *)
Lemma enumeration_error_is_not_logged :
  be_GetChildren (Backend := scripted flaky_enumeration_script) 0%nat
  = (Raise (Exception "enumeration failed"), 1%nat)
  /\ cycle (B := scripted flaky_enumeration_script) default_config 0%nat
     = (Ok tt, 1%nat, [EvGetChildren; EvSleep half_second])
  /\ existsb is_Print
       (events (cycle (B := scripted flaky_enumeration_script) default_config 0%nat))
     = false.
Proof. repeat split; reflexivity. Qed.

(** The enumeration fails in the first cycle and the second cycle runs;
    the class read fails; the search for the Accept button fails; the
    existence check of the Confirm button fails after the Accept button was
    clicked. *)
Lemma cycle_errors_absorbed_silently_witness :
  (cycle (B := scripted flaky_enumeration_script) default_config 0%nat
   = (Ok tt, 1%nat, [EvGetChildren; EvSleep half_second])
   /\ exists t',
        events (watch_loop (B := scripted flaky_enumeration_script)
                  default_config 2 0%nat)
        = [EvGetChildren; EvSleep half_second] ++ EvGetChildren :: t')
  /\ cycle (B := scripted class_error_script) default_config 0%nat
     = (Ok tt, 2%nat,
        [EvGetChildren;
         EvClassName win1 (Raise (Exception "window closed"));
         EvSleep half_second])
  /\ cycle (B := scripted search_error_script) default_config 0%nat
     = (Ok tt, 3%nat,
        [EvGetChildren;
         EvClassName win1 (Ok "Chrome_WidgetWin_1");
         EvButtonControl win1 15 "Accept.*";
         EvSleep half_second])
  /\ cycle (B := scripted confirm_check_error_script) default_config 0%nat
     = (Ok tt, 9%nat,
        [EvGetChildren;
         EvClassName win1 (Ok "Chrome_WidgetWin_1");
         EvButtonControl win1 15 "Accept.*";
         EvExists accept_btn (Ok true); EvName accept_btn;
         EvPrint "Found Accept button: Accept";
         EvIsEnabled accept_btn (Ok true);
         EvInvoke accept_btn;
         EvPrint "Success: Accept button invoked via UIA Pattern!";
         EvSleep half_second;
         EvSleep half_second;
         EvButtonControl win1 15 "Confirm.*";
         EvExists confirm_btn (Raise (Exception "stale element"));
         EvSleep half_second]).
Proof.
  split; [|split; [|split]].
  - destruct (proj1 (cycle_errors_absorbed_silently
                       (B := scripted flaky_enumeration_script) default_config)
                0%nat 1%nat "enumeration failed" eq_refl) as [Hc Hnext].
    split; [exact Hc|exact (Hnext 0%nat)].
  - apply (proj1 (proj2 (cycle_errors_absorbed_silently
                           (B := scripted class_error_script) default_config))
             [] [] win1 0%nat 1%nat 1%nat 2%nat []
             [EvClassName win1 (Raise (Exception "window closed"))]
             "window closed").
    + reflexivity.
    + reflexivity.
    + apply (class_read_raises (B := scripted class_error_script)). reflexivity.
  - apply (proj1 (proj2 (cycle_errors_absorbed_silently
                           (B := scripted search_error_script) default_config))
             [] [] win1 0%nat 1%nat 1%nat 3%nat []
             [EvClassName win1 (Ok "Chrome_WidgetWin_1");
              EvButtonControl win1 15 "Accept.*"]
             "search failed").
    + reflexivity.
    + reflexivity.
    + apply (accept_search_raises (B := scripted search_error_script)
               default_config win1 1%nat "search failed" 2%nat 3%nat);
        reflexivity.
  - apply (proj1 (proj2 (cycle_errors_absorbed_silently
                           (B := scripted confirm_check_error_script)
                           default_config))
             [] [] win1 0%nat 1%nat 1%nat 9%nat []
             ([EvClassName win1 (Ok "Chrome_WidgetWin_1");
               EvButtonControl win1 15 "Accept.*"]
                ++ events (click_button (B := scripted confirm_check_error_script)
                             accept_btn "Accept" 0 3%nat)
                ++ [EvSleep half_second;
                    EvButtonControl win1 15 "Confirm.*";
                    EvExists confirm_btn (Raise (Exception "stale element"))])
             "stale element").
    + reflexivity.
    + reflexivity.
    + apply (confirm_exists_raises (B := scripted confirm_check_error_script)
               default_config win1 1%nat "stale element"
               2%nat 3%nat 7%nat 8%nat 9%nat accept_btn confirm_btn);
        reflexivity.
Defined.

(** Each of the three reads failing in turn, and the cycle in which the
    name read of the Accept button fails: the second window is not
    processed. *)
Lemma property_read_errors_abort_the_cycle_witness :
  click_button
    (B := scripted (with_exists base_script (fun _ _ => Raise (Exception "stale"))))
    accept_btn "Accept" 0 0%nat
  = (Raise (Exception "stale"), 1%nat, [EvExists accept_btn (Raise (Exception "stale"))])
  /\ click_button (B := scripted name_error_script) accept_btn "Accept" 0 0%nat
     = (Raise (Exception "COM error"), 2%nat,
        [EvExists accept_btn (Ok true); EvName accept_btn])
  /\ click_button
       (B := scripted (with_enabled base_script (fun _ => Raise (Exception "stale"))))
       accept_btn "Accept" 0 0%nat
     = (Raise (Exception "stale"), 3%nat,
        [EvExists accept_btn (Ok true); EvName accept_btn;
         EvPrint "Found Accept button: Accept";
         EvIsEnabled accept_btn (Raise (Exception "stale"))])
  /\ cycle (B := scripted name_error_script) default_config 0%nat
     = (Ok tt, 5%nat,
        [EvGetChildren;
         EvClassName win1 (Ok "Chrome_WidgetWin_1");
         EvButtonControl win1 15 "Accept.*";
         EvExists accept_btn (Ok true); EvName accept_btn;
         EvSleep half_second]).
Proof.
  split; [|split; [|split]].
  - apply (proj1 (property_read_errors_abort_the_cycle
                    (B := scripted (with_exists base_script
                                      (fun _ _ => Raise (Exception "stale"))))
                    default_config)).
    reflexivity.
  - apply (proj1 (proj2 (property_read_errors_abort_the_cycle
                           (B := scripted name_error_script) default_config))
             accept_btn "Accept" 0 0%nat 1%nat 2%nat); reflexivity.
  - apply (proj1 (proj2 (proj2 (property_read_errors_abort_the_cycle
                                  (B := scripted
                                          (with_enabled base_script
                                             (fun _ => Raise (Exception "stale"))))
                                  default_config)))
             accept_btn "Accept" 0 0%nat 1%nat 2%nat 3%nat "Accept"); reflexivity.
  - exact (proj1 (proj2 (proj2 (proj2 (property_read_errors_abort_the_cycle
                                         (B := scripted name_error_script)
                                         default_config)))
                    [] [win2] win1 accept_btn
                    0%nat 1%nat 1%nat 2%nat 3%nat 5%nat
                    [] [EvExists accept_btn (Ok true); EvName accept_btn]
                    "COM error" eq_refl eq_refl eq_refl eq_refl eq_refl)).
Defined.

(** ** More on the invocation cascade *)

(** Case analysis on the answers of the backend, leaving the test of the
    pre-click delay alone. *)
Ltac case_call :=
  match goal with
  | |- context [be_Exists ?c ?w] =>
      destruct (be_Exists c w) as [[[|]|[?|]] ?]
  | |- context [be_Name ?c ?w] =>
      destruct (be_Name c w) as [[?|[?|]] ?]
  | |- context [be_printable ?n] =>
      destruct (be_printable n)
  | |- context [be_IsEnabled ?c ?w] =>
      destruct (be_IsEnabled c w) as [[[|]|[?|]] ?]
  | |- context [Qle_bool be_sleep_limit ?d] =>
      destruct (Qle_bool be_sleep_limit d)
  | |- context [be_error_printable ?e] =>
      destruct (be_error_printable e)
  | |- context [be_Invoke ?c ?w] =>
      destruct (be_Invoke c w) as [[?|[?|]] ?]
  | |- context [be_GetLegacyIAccessiblePattern ?c ?w] =>
      destruct (be_GetLegacyIAccessiblePattern c w) as [[[?|]|[?|]] ?]
  | |- context [be_DoDefaultAction ?l ?w] =>
      destruct (be_DoDefaultAction l w) as [[?|[?|]] ?]
  | |- context [be_Click ?c ?w] =>
      destruct (be_Click c w) as [[?|[?|]] ?]
  end.


Lemma Qpositive_half_second : Qpositive half_second = true.
Proof. reflexivity. Qed.

Section CascadeInvariants.

Context {W : Type} {B : Backend W}.


Lemma click_button_sleeps_positive (button : Control) (button_type : string)
  (click_delay : Q) (w : W) :
  forallb sleeps_positive (events (click_button button button_type click_delay w))
  = true.
Proof.
  unfold_cascade.
  destruct (Qpositive click_delay) eqn:Hd;
    repeat (cbn -[Qpositive Qle_bool String.append];
            rewrite ?Hd, ?Qpositive_half_second; case_call);
    cbn -[Qpositive Qle_bool String.append];
    rewrite ?Hd, ?Qpositive_half_second; reflexivity.
Qed.

(** [click_button] never sleeps for a duration that is not positive: the
    pre-click delay is slept only when it is greater than zero (so a
    negative [--delay] cannot make [time.sleep] raise), and the only other
    sleep is the settle delay of half a second. *)
Theorem cascade_sleeps_positive (button : Control) (button_type : string)
  (click_delay : Q) (w : W) :
  forallb sleeps_positive (events (click_button button button_type click_delay w))
  = true
  /\ (Qpositive click_delay = false ->
      forallb sleeps_half_second
        (events (click_button button button_type click_delay w)) = true).
Proof.
  split; [apply click_button_sleeps_positive|].
  intros Hd. unfold_cascade. rewrite Hd. case_answers; reflexivity.
Qed.

(** An [Exception] leaves [click_button] only from one of the three reads
    at its head (the existence check, the name, the enabled flag), from
    [time.sleep] refusing the pre-click delay, or from the print of a
    failure line whose exception text cannot be printed.  An [Exception]
    raised by a strategy call never leaves it by itself. *)
Theorem cascade_exception_origin (button : Control) (button_type : string)
  (click_delay : Q) (w : W) (msg : string) :
  outcome (click_button button button_type click_delay w) = Raise (Exception msg) ->
  fst (be_Exists button w) = Raise (Exception msg)
  \/ (exists w1,
         be_Exists button w = (Ok true, w1)
         /\ fst (be_Name button w1) = Raise (Exception msg))
  \/ (exists w1 name w2,
         be_Exists button w = (Ok true, w1)
         /\ be_Name button w1 = (Ok name, w2)
         /\ fst (be_IsEnabled button w2) = Raise (Exception msg))
  \/ (Qpositive click_delay = true
      /\ Qle_bool be_sleep_limit click_delay = true
      /\ Exception msg = OverflowError)
  \/ (Exception msg = UnicodeEncodeError
      /\ exists e, be_error_printable e = false).
Proof.
  intros H.
  destruct (be_Exists button w) as [[[|]|e] w1] eqn:HE.
  - destruct (be_Name button w1) as [[name|e] w2] eqn:HN.
    + destruct (be_IsEnabled button w2) as [[[|]|e] w3] eqn:HI.
      * right. right. right.
        revert H. unfold_cascade. rewrite HE.
        cbn -[Qpositive Qle_bool String.append]. rewrite HN.
        destruct (be_printable name);
          cbn -[Qpositive Qle_bool String.append]; rewrite HI;
          destruct (Qpositive click_delay) eqn:Hp;
          try destruct (Qle_bool be_sleep_limit click_delay) eqn:Hl;
          repeat (cbn -[Qpositive Qle_bool String.append];
                  first [ match goal with
                          | |- context [be_error_printable ?x] =>
                              destruct (be_error_printable x) eqn:?
                          end
                        | case_answer ]);
          cbn -[Qpositive Qle_bool String.append];
          intros H; try discriminate H; injection H as <-;
          first [ left; repeat split; reflexivity
                | right; split; [reflexivity | eexists; eassumption] ].
      * rewrite (click_button_disabled button button_type click_delay
                   w w1 w2 w3 name HE HN HI) in H.
        discriminate H.
      * right. right. left. exists w1, name, w2.
        split; [reflexivity|]. split; [exact HN|].
        rewrite HI. cbn [fst].
        revert H. unfold_cascade. rewrite HE. cbn. rewrite HN.
        destruct (be_printable name); cbn; rewrite HI; cbn; intros H; exact H.
    + right. left. exists w1. split; [reflexivity|].
      rewrite HN. cbn [fst].
      revert H. unfold_cascade. rewrite HE. cbn. rewrite HN. cbn.
      intros H. injection H as ->. reflexivity.
  - rewrite (click_button_absent button button_type click_delay w w1 HE) in H.
    discriminate H.
  - left. revert H. unfold_cascade. rewrite HE. cbn. intros H; exact H.
Qed.

(** A [KeyboardInterrupt] raised by a strategy call is not taken for a
    failure of the strategy: [except Exception] lets it through, so that
    [click_button] raises it at once.  The interrupted call is the last
    event of the run: no failure line is printed for it and no other
    strategy is tried. *)
Theorem cascade_interrupt_leaves_at_once (button : Control) (button_type : string)
  (click_delay : Q) (w w1 w2 w3 : W) (name : string) :
  be_Exists button w = (Ok true, w1) ->
  be_Name button w1 = (Ok name, w2) ->
  be_IsEnabled button w2 = (Ok true, w3) ->
  delay_accepted click_delay = true ->
  (forall w4,
      be_Invoke button w3 = (Raise KeyboardInterrupt, w4) ->
      click_button button button_type click_delay w
      = (Raise KeyboardInterrupt, w4,
         entry_events button button_type name true
           ++ delay_events click_delay ++ [EvInvoke button]))
  /\ (forall msg w4 w5,
         be_Invoke button w3 = (Raise (Exception msg), w4) ->
         be_error_printable msg = true ->
         be_GetLegacyIAccessiblePattern button w4 = (Raise KeyboardInterrupt, w5) ->
         click_button button button_type click_delay w
         = (Raise KeyboardInterrupt, w5,
            entry_events button button_type name true
              ++ delay_events click_delay
              ++ [EvInvoke button; EvPrint ("Invoke failed: " ++ msg);
                  EvGetLegacyIAccessiblePattern button]))
  /\ (forall msg w4 l w5 w6,
         be_Invoke button w3 = (Raise (Exception msg), w4) ->
         be_error_printable msg = true ->
         be_GetLegacyIAccessiblePattern button w4 = (Ok (Some l), w5) ->
         be_DoDefaultAction l w5 = (Raise KeyboardInterrupt, w6) ->
         click_button button button_type click_delay w
         = (Raise KeyboardInterrupt, w6,
            entry_events button button_type name true
              ++ delay_events click_delay
              ++ [EvInvoke button; EvPrint ("Invoke failed: " ++ msg);
                  EvGetLegacyIAccessiblePattern button; EvDoDefaultAction l]))
  /\ (forall msg w4 w5 calls w6,
         be_Invoke button w3 = (Raise (Exception msg), w4) ->
         be_error_printable msg = true ->
         legacy_fails button w4 w5 calls ->
         be_Click button w5 = (Raise KeyboardInterrupt, w6) ->
         outcome (click_button button button_type click_delay w)
         = Raise KeyboardInterrupt
         /\ world (click_button button button_type click_delay w) = w6
         /\ last (events (click_button button button_type click_delay w))
              EvGetChildren
            = EvClick button).
Proof.
  intros HE HN HI Hd.
  pose proof (click_button_enabled button button_type click_delay
                w w1 w2 w3 name HE HN HI Hd) as Hentry.
  split; [|split; [|split]].
  - intros w4 HV. rewrite Hentry. unfold method1. unfold_calls. rewrite HV.
    unfold prepend, entry_events, delay_events.
    destruct (Qpositive click_delay); reflexivity.
  - intros msg w4 w5 HV Hp HL. rewrite Hentry.
    unfold method1, method2. unfold_calls. rewrite HV.
    cbn -[Qpositive Qle_bool String.append]. rewrite Hp.
    cbn -[Qpositive Qle_bool String.append]. rewrite HL.
    unfold prepend, entry_events, delay_events.
    destruct (Qpositive click_delay); reflexivity.
  - intros msg w4 l w5 w6 HV Hp HL HD. rewrite Hentry.
    unfold method1, method2. unfold_calls. rewrite HV.
    cbn -[Qpositive Qle_bool String.append]. rewrite Hp.
    cbn -[Qpositive Qle_bool String.append]. rewrite HL.
    cbn -[Qpositive Qle_bool String.append]. rewrite HD.
    unfold prepend, entry_events, delay_events.
    destruct (Qpositive click_delay); reflexivity.
  - intros msg w4 w5 calls w6 HV Hp HF HC. rewrite Hentry.
    unfold method1, method2, method3. unfold_calls. rewrite HV.
    cbn -[Qpositive Qle_bool String.append]. rewrite Hp.
    cbn -[Qpositive Qle_bool String.append].
    destruct HF as [m w5 HL Hm | w5 HL | l m w' w5 HL HD Hm];
      rewrite HL; cbn -[Qpositive Qle_bool String.append];
      try (rewrite HD; cbn -[Qpositive Qle_bool String.append]);
      try (rewrite Hm; cbn -[Qpositive Qle_bool String.append]);
      rewrite HC;
      unfold prepend, entry_events, delay_events;
      destruct (Qpositive click_delay);
      repeat split; reflexivity.
Qed.

(** [click_button] returns [True] only after it has seen the control exist
    and be enabled, and its last strategy call is then an activation
    ([Invoke], the legacy default action or [Click]): success is never
    reported for a control that is absent or disabled, or without a call
    that activates it. *)
Theorem cascade_success_means_activation (button : Control) (button_type : string)
  (click_delay : Q) (w : W) :
  outcome (click_button button button_type click_delay w) = Ok true ->
  In (EvExists button (Ok true))
     (events (click_button button button_type click_delay w))
  /\ In (EvIsEnabled button (Ok true))
        (events (click_button button button_type click_delay w))
  /\ is_activation
       (last (strategy_calls (events (click_button button button_type click_delay w)))
          EvGetChildren) = true.
Proof.
  intros H. revert H. unfold_cascade. unfold strategy_calls.
  case_answers; intros H; try discriminate H;
    repeat split; cbn; auto 10.
Qed.

(** When every strategy fails with an [Exception] whose text can be
    printed, and the pre-click delay is one that [time.sleep] accepts,
    [click_button] returns [False]; the failures of [Invoke] and of the
    click are each logged with the text of the exception, and the settle
    delay is not slept. *)
Theorem cascade_all_strategies_fail (button : Control) (button_type : string)
  (click_delay : Q) (w w1 w2 w3 w4 w5 w6 : W) (name msg1 msg3 : string)
  (calls : trace) :
  be_Exists button w = (Ok true, w1) ->
  be_Name button w1 = (Ok name, w2) ->
  be_IsEnabled button w2 = (Ok true, w3) ->
  delay_accepted click_delay = true ->
  be_Invoke button w3 = (Raise (Exception msg1), w4) ->
  be_error_printable msg1 = true ->
  legacy_fails button w4 w5 calls ->
  be_Click button w5 = (Raise (Exception msg3), w6) ->
  be_error_printable msg3 = true ->
  outcome (click_button button button_type click_delay w) = Ok false
  /\ world (click_button button button_type click_delay w) = w6
  /\ In (EvPrint ("Invoke failed: " ++ msg1))
        (events (click_button button button_type click_delay w))
  /\ last (events (click_button button button_type click_delay w)) EvGetChildren
     = EvPrint ("Physical click failed: " ++ msg3)
  /\ count is_Sleep (events (click_button button button_type click_delay w))
     = (if Qpositive click_delay then 1 else 0)%nat.
Proof.
  intros HE HN HI Hd HV Hp1 HF HC Hp3.
  rewrite (click_button_enabled button button_type click_delay
             w w1 w2 w3 name HE HN HI Hd).
  unfold method1, method2, method3. unfold_calls. rewrite HV.
  cbn -[Qpositive Qle_bool String.append]. rewrite Hp1.
  cbn -[Qpositive Qle_bool String.append].
  destruct HF as [m w5 HL Hm | w5 HL | l m w' w5 HL HD Hm];
    rewrite HL; cbn -[Qpositive Qle_bool String.append];
    try (rewrite HD; cbn -[Qpositive Qle_bool String.append]);
    try (rewrite Hm; cbn -[Qpositive Qle_bool String.append]);
    rewrite HC; cbn -[Qpositive Qle_bool String.append]; rewrite Hp3;
    unfold prepend, entry_events, delay_events, count;
    destruct (Qpositive click_delay);
    repeat split; cbn -[String.append]; auto 10.
Qed.

End CascadeInvariants.

(** ** More on the watch loop *)

(** A property of single events that holds for the class reads, for the two
    searches the loop makes, for the settle sleep, for the existence check
    and along every cascade holds along the whole loop. *)
Section LoopInvariant.

Context {W : Type} {B : Backend W}.

Variable args : Config.
Variable P : event -> bool.

Hypothesis P_class : forall w r, P (EvClassName w r) = true.
Hypothesis P_accept :
  forall w, P (EvButtonControl w 15 (accept_pattern args)) = true.
Hypothesis P_confirm :
  forall w, P (EvButtonControl w 15 (confirm_pattern args)) = true.
Hypothesis P_half_second : P (EvSleep half_second) = true.
Hypothesis P_exists : forall c r, P (EvExists c r) = true.
Hypothesis P_cascade :
  forall c button_type w,
    forallb P (events (click_button c button_type (click_delay args) w)) = true.

Ltac forall_step :=
  cbn -[half_second];
  repeat first
    [ rewrite forallb_app
    | rewrite P_class
    | rewrite P_accept
    | rewrite P_confirm
    | rewrite P_half_second
    | rewrite P_exists
    | match goal with H : forallb P _ = true |- _ => rewrite H end
    | progress cbn [forallb app andb events outcome world fst snd prepend] ].

Lemma window_body_forall (window : Window) (w : W) :
  forallb P (events (window_body args window w)) = true.
Proof.
  unfold window_body, ClassName, ButtonControl, Exists, sleep, emit, call, bind, ret.
  destruct (be_ClassName window w) as [[cls|e] w1]; [|forall_step; reflexivity].
  destruct (String.eqb cls "Chrome_WidgetWin_1");
    [|forall_step; reflexivity].
  cbn [negb].
  destruct (be_ButtonControl window 15 (accept_pattern args) w1) as [[ab|e] w2];
    [|forall_step; reflexivity].
  pose proof (P_cascade ab "Accept" w2) as Ha.
  destruct (click_button ab "Accept" (click_delay args) w2) as [[[[|]|e] w3] t3];
    cbn [events snd] in Ha; [| |forall_step; reflexivity].
  - destruct (be_ButtonControl window 15 (confirm_pattern args) w3)
      as [[cb|e] w4]; [|forall_step; reflexivity].
    destruct (be_Exists cb w4) as [[[|]|e] w5];
      [| forall_step; reflexivity | forall_step; reflexivity].
    pose proof (P_cascade cb "Confirm" w5) as Hc.
    destruct (click_button cb "Confirm" (click_delay args) w5) as [[[b|e] w6] t6];
      cbn [events snd] in Hc; forall_step; reflexivity.
  - destruct (be_ButtonControl window 15 (confirm_pattern args) w3)
      as [[cb|e] w4]; [|forall_step; reflexivity].
    pose proof (P_cascade cb "Confirm" w4) as Hc.
    destruct (click_button cb "Confirm" (click_delay args) w4)
      as [[[[|]|e] w6] t6];
      cbn [events snd] in Hc; forall_step; reflexivity.
Qed.

Lemma for_windows_forall (windows : list Window) (w : W) :
  forallb P (events (for_windows args windows w)) = true.
Proof.
  revert w. induction windows as [|window rest IH]; intros w; [reflexivity|].
  rewrite for_windows_cons. unfold bind, ret.
  pose proof (window_body_forall window w) as Hb.
  destruct (window_body args window w) as [[[[|]|e] w1] t1];
    cbn [events snd] in Hb; cbn [events snd].
  - specialize (IH w1).
    destruct (for_windows args rest w1) as [[r2 w2] t2]. cbn [events snd] in *.
    rewrite forallb_app, Hb, IH. reflexivity.
  - rewrite app_nil_r. exact Hb.
  - exact Hb.
Qed.

Hypothesis P_enumeration : P EvGetChildren = true.

Lemma cycle_forall (w : W) : forallb P (events (cycle args w)) = true.
Proof.
  rewrite cycle_run. cbn [events snd]. rewrite forallb_app.
  assert (Hb : forallb P (events (cycle_body args w)) = true).
  { destruct (be_GetChildren w) as [[ws|e] w1] eqn:HG.
    - rewrite (cycle_body_run args ws w w1 HG). cbn [events snd forallb].
      rewrite P_enumeration. apply for_windows_forall.
    - unfold cycle_body, GetChildren, call, bind. rewrite HG.
      cbn. rewrite P_enumeration. reflexivity. }
  rewrite Hb.
  destruct (outcome (cycle_body args w)) as [u|[msg|]]; cbn;
    rewrite ?P_half_second; reflexivity.
Qed.

Lemma watch_loop_forall (n : nat) (w : W) :
  forallb P (events (watch_loop args n w)) = true.
Proof.
  revert w. induction n as [|n IH]; intros w; [reflexivity|].
  cbn [watch_loop]. unfold bind.
  pose proof (cycle_forall w) as Hc.
  destruct (cycle args w) as [[[u|e] w1] t1]; cbn [events snd] in *.
  - specialize (IH w1).
    destruct (watch_loop args n w1) as [[r2 w2] t2]. cbn [events snd] in *.
    rewrite forallb_app, Hc, IH. reflexivity.
  - exact Hc.
Qed.

End LoopInvariant.

Section LoopProperties.

Context {W : Type} {B : Backend W}.

Lemma forallb_weaken (P Q : event -> bool) (t : trace) :
  (forall ev, P ev = true -> Q ev = true) ->
  forallb P t = true -> forallb Q t = true.
Proof.
  intros HPQ. induction t as [|ev t IH]; [reflexivity|].
  cbn. intros H. apply andb_true_iff in H. destruct H as [Hev Ht].
  rewrite (HPQ ev Hev), (IH Ht). reflexivity.
Qed.

Lemma count_zero (P : event -> bool) (t : trace) :
  forallb (fun ev => negb (P ev)) t = true -> count P t = 0%nat.
Proof.
  unfold count. induction t as [|ev t IH]; [reflexivity|].
  cbn. intros H. apply andb_true_iff in H. destruct H as [Hev Ht].
  destruct (P ev); [discriminate Hev|]. exact (IH Ht).
Qed.

(** Over any number of iterations, every subtree search is made with
    [searchDepth=15] and with the Accept pattern or the Confirm pattern of
    the command line: the depth bound is never exceeded and no other name
    is ever searched for. *)
Theorem searches_as_configured (args : Config) (n : nat) (w : W) :
  forallb (search_as_configured (accept_pattern args) (confirm_pattern args))
    (events (watch_loop args n w)) = true.
Proof.
  apply watch_loop_forall; try reflexivity.
  - intros w'. cbn. rewrite String.eqb_refl. reflexivity.
  - intros w'. cbn. rewrite String.eqb_refl. apply orb_true_r.
  - intros c button_type w'.
    apply (forallb_weaken is_cascade_event); [|apply click_button_events].
    intros ev Hev. destruct ev; try reflexivity; discriminate Hev.
Qed.

(** Over any number of iterations, every [time.sleep] of the program has a
    positive duration: the poll and settle sleeps are half a second, and
    the pre-click delay is slept only when it is greater than zero. *)
Theorem loop_sleeps_positive (args : Config) (n : nat) (w : W) :
  forallb sleeps_positive (events (watch_loop args n w)) = true.
Proof.
  apply watch_loop_forall; try reflexivity.
  intros c button_type w'. apply click_button_sleeps_positive.
Qed.

Lemma for_windows_no_enumeration (args : Config) (windows : list Window) (w : W) :
  count is_GetChildren (events (for_windows args windows w)) = 0%nat.
Proof.
  apply count_zero.
  apply (for_windows_forall args (fun ev => negb (is_GetChildren ev)));
    try reflexivity.
  intros c button_type w'.
  apply (forallb_weaken is_cascade_event); [|apply click_button_events].
  intros ev Hev. destruct ev; try reflexivity; discriminate Hev.
Qed.

Lemma cycle_one_enumeration (args : Config) (w : W) :
  count is_GetChildren (events (cycle args w)) = 1%nat.
Proof.
  rewrite cycle_run. cbn [events snd]. rewrite count_app.
  assert (Hb : count is_GetChildren (events (cycle_body args w)) = 1%nat).
  { destruct (be_GetChildren w) as [[ws|e] w1] eqn:HG.
    - rewrite (cycle_body_run args ws w w1 HG). cbn [events snd].
      change (EvGetChildren :: events (for_windows args ws w1))
        with ([EvGetChildren] ++ events (for_windows args ws w1)).
      rewrite count_app, for_windows_no_enumeration. reflexivity.
    - unfold cycle_body, GetChildren, call, bind. rewrite HG. reflexivity. }
  rewrite Hb.
  destruct (outcome (cycle_body args w)) as [u|[msg|]]; reflexivity.
Qed.

(** The windows are enumerated exactly once per iteration: [n] iterations
    make at most [n] enumerations, and exactly [n] when no
    [KeyboardInterrupt] ends the loop early. *)
Theorem one_enumeration_per_cycle (args : Config) (n : nat) (w : W) :
  (count is_GetChildren (events (watch_loop args n w)) <= n)%nat
  /\ (outcome (watch_loop args n w) = Ok tt ->
      count is_GetChildren (events (watch_loop args n w)) = n).
Proof.
  revert w. induction n as [|n IH]; intros w.
  - split; intros; reflexivity.
  - cbn [watch_loop]. unfold bind.
    pose proof (cycle_one_enumeration args w) as Hc.
    destruct (cycle args w) as [[[u|e] w1] t1]; cbn [events snd] in Hc.
    + destruct (IH w1) as [Hle Heq].
      destruct (watch_loop args n w1) as [[r2 w2] t2].
      cbn [events snd outcome fst] in *.
      rewrite count_app, Hc. split.
      * lia.
      * intros H. rewrite (Heq H). reflexivity.
    + cbn [events snd outcome fst]. rewrite Hc. split.
      * lia.
      * intros H. discriminate H.
Qed.

(** First match wins: when the pass at a window ends with [break] (its
    Accept button was clicked, or its Confirm button alone), the [for] loop
    ends there and the windows after it are not touched in that cycle,
    whatever they are. *)
Theorem first_match_wins (args : Config) (pre rest : list Window) (window : Window)
  (w w0 w1 : W) (t0 t1 : trace) :
  for_windows args pre w = (Ok Next, w0, t0) ->
  window_body args window w0 = (Ok Break, w1, t1) ->
  for_windows args (pre ++ window :: rest) w = (Ok Break, w1, t0 ++ t1).
Proof.
  intros Hpre Hb.
  rewrite (for_windows_app args pre (window :: rest) w w0 t0 Hpre).
  rewrite for_windows_cons.
  rewrite (bind_Ok (window_body args window) _ w0 Break w1 t1 Hb).
  unfold prepend, ret, outcome, world, events; cbn.
  rewrite app_nil_r. reflexivity.
Qed.

Lemma watch_loop_no_Exception (args : Config) (n : nat) (w : W) :
  outcome (watch_loop args n w) = Ok tt
  \/ outcome (watch_loop args n w) = Raise KeyboardInterrupt.
Proof.
  revert w. induction n as [|n IH]; intros w; [left; reflexivity|].
  cbn [watch_loop]. unfold bind.
  pose proof (f_equal outcome (cycle_run args w)) as Hc.
  destruct (cycle args w) as [[[[]|e] w1] t1]; cbn [outcome fst] in Hc.
  - specialize (IH w1). destruct (watch_loop args n w1) as [[r2 w2] t2].
    exact IH.
  - right. cbn [outcome fst].
    destruct (outcome (cycle_body args w)) as [u|[msg|]];
      cbn in Hc; try discriminate Hc; exact Hc.
Qed.

(** Nothing but an interrupt ends the loop, and the interrupt ends it
    cleanly: whatever the backend does, the loop under its
    [except KeyboardInterrupt] handler returns normally.  When a
    [KeyboardInterrupt] left the iterations, the handler adds the line
    "Stopping UIA Service..." and nothing else; otherwise it adds
    nothing. *)
Theorem main_loop_returns_normally (args : Config) (n : nat) (w : W) :
  outcome (main_loop args n w) = Ok tt
  /\ (outcome (watch_loop args n w) = Raise KeyboardInterrupt ->
      events (main_loop args n w)
      = events (watch_loop args n w) ++ [EvPrint "Stopping UIA Service..."])
  /\ (outcome (watch_loop args n w) = Ok tt ->
      main_loop args n w = watch_loop args n w).
Proof.
  unfold main_loop, try_interrupt, flush_print, emit.
  pose proof (watch_loop_no_Exception args n w) as H.
  destruct (watch_loop args n w) as [[[[]|[msg|]] w1] t1]; cbn [outcome fst] in H.
  - repeat split; intros; try reflexivity. discriminate.
  - destruct H as [H|H]; discriminate H.
  - repeat split; intros; try reflexivity. discriminate.
Qed.

(** A [KeyboardInterrupt] raised in the [try] block of an iteration is not
    absorbed by [except Exception]: the iteration ends without its poll
    sleep, none of the remaining iterations runs, and the program prints
    "Stopping UIA Service..." and returns. *)
Theorem interrupt_stops_the_loop (args : Config) (w w1 : W) (t : trace) :
  cycle_body args w = (Raise KeyboardInterrupt, w1, t) ->
  cycle args w = (Raise KeyboardInterrupt, w1, t)
  /\ (forall n, watch_loop args (S n) w = (Raise KeyboardInterrupt, w1, t))
  /\ (forall n,
         main_loop args (S n) w
         = (Ok tt, w1, t ++ [EvPrint "Stopping UIA Service..."])).
Proof.
  intros Hb.
  assert (Hc : cycle args w = (Raise KeyboardInterrupt, w1, t)).
  { rewrite cycle_run, Hb. cbn. rewrite app_nil_r. reflexivity. }
  assert (Hw : forall n, watch_loop args (S n) w = (Raise KeyboardInterrupt, w1, t)).
  { intros n. cbn [watch_loop]. apply bind_Raise. exact Hc. }
  split; [exact Hc|split; [exact Hw|]].
  intros n. unfold main_loop, try_interrupt. rewrite (Hw n). reflexivity.
Qed.

End LoopProperties.

(** ** The stamp that flush_print writes *)

Lemma digit_injective (a b : nat) :
  (a < 10)%nat -> (b < 10)%nat -> digit a = digit b -> a = b.
Proof.
  intros Ha Hb H. unfold digit in H.
  apply (f_equal Ascii.nat_of_ascii) in H.
  rewrite !Ascii.nat_ascii_embedding in H by lia. lia.
Qed.

Lemma two_digits_injective (n m : nat) :
  (n < 100)%nat -> (m < 100)%nat -> two_digits n = two_digits m -> n = m.
Proof.
  intros Hn Hm H. unfold two_digits in H. injection H as Hq Hr.
  assert (Hnq : (n / 10 < 10)%nat) by (apply Nat.Div0.div_lt_upper_bound; lia).
  assert (Hmq : (m / 10 < 10)%nat) by (apply Nat.Div0.div_lt_upper_bound; lia).
  assert (Hnr : (n mod 10 < 10)%nat) by (apply Nat.mod_upper_bound; lia).
  assert (Hmr : (m mod 10 < 10)%nat) by (apply Nat.mod_upper_bound; lia).
  assert (Eq : (n / 10 = m / 10)%nat)
    by (apply digit_injective; [assumption|assumption|exact Hq]).
  assert (Er : (n mod 10 = m mod 10)%nat)
    by (apply digit_injective; [assumption|assumption|exact Hr]).
  pose proof (Nat.div_mod_eq n 10) as En. pose proof (Nat.div_mod_eq m 10) as Em.
  lia.
Qed.

(** The stamp tells the time of day: two different valid times of day give
    two different stamps. *)
Theorem ts_distinguishes_times (now now' : time_of_day) :
  valid_time now -> valid_time now' -> now <> now' -> ts now <> ts now'.
Proof.
  intros [Hh [Hm Hs]] [Hh' [Hm' Hs']] Hne H. apply Hne.
  destruct now as [h m s], now' as [h' m' s']. cbn [hour minute second] in *.
  unfold ts in H. cbn [hour minute second] in H.
  assert (Eh : two_digits h = two_digits h').
  { unfold two_digits in *. cbn [String.append] in H. injection H. intros. congruence. }
  assert (Em : two_digits m = two_digits m').
  { unfold two_digits in *. cbn [String.append] in H. injection H. intros. congruence. }
  assert (Es : two_digits s = two_digits s').
  { unfold two_digits in *. cbn [String.append] in H. injection H. intros. congruence. }
  apply two_digits_injective in Eh; [|lia|lia].
  apply two_digits_injective in Em; [|lia|lia].
  apply two_digits_injective in Es; [|lia|lia].
  subst. reflexivity.
Qed.

Lemma ts_distinguishes_times_witness :
  ts {| hour := 9; minute := 5; second := 7 |} = "[09:05:07]"
  /\ ts {| hour := 9; minute := 5; second := 7 |}
     <> ts {| hour := 9; minute := 5; second := 8 |}.
Proof.
  split; [reflexivity|].
  apply ts_distinguishes_times.
  - unfold valid_time. cbn. lia.
  - unfold valid_time. cbn. lia.
  - intros H. discriminate H.
Defined.

(** ** Concrete runs for the further properties *)

(** The name read fails: the exception that leaves [click_button] is the
    one of that read. *)
Lemma cascade_exception_origin_witness :
  fst (be_Exists (Backend := scripted name_error_script) accept_btn 0%nat)
  = Raise (Exception "COM error")
  \/ (exists w1,
         be_Exists (Backend := scripted name_error_script) accept_btn 0%nat
         = (Ok true, w1)
         /\ fst (be_Name (Backend := scripted name_error_script) accept_btn w1)
            = Raise (Exception "COM error"))
  \/ (exists w1 name w2,
         be_Exists (Backend := scripted name_error_script) accept_btn 0%nat
         = (Ok true, w1)
         /\ be_Name (Backend := scripted name_error_script) accept_btn w1
            = (Ok name, w2)
         /\ fst (be_IsEnabled (Backend := scripted name_error_script) accept_btn w2)
            = Raise (Exception "COM error"))
  \/ (Qpositive 0 = true
      /\ Qle_bool (be_sleep_limit (Backend := scripted name_error_script)) 0 = true
      /\ Exception "COM error" = OverflowError)
  \/ (Exception "COM error" = UnicodeEncodeError
      /\ exists e,
           be_error_printable (Backend := scripted name_error_script) e = false).
Proof.
  apply (cascade_exception_origin (B := scripted name_error_script)
           accept_btn "Accept" 0 0%nat "COM error").
  reflexivity.
Defined.

(** The user interrupts during [Invoke]. *)
Lemma cascade_interrupt_leaves_at_once_witness :
  click_button (B := scripted interrupt_script) accept_btn "Accept" 0 0%nat
  = (Raise KeyboardInterrupt, 4%nat,
     [EvExists accept_btn (Ok true); EvName accept_btn;
      EvPrint "Found Accept button: Accept"; EvIsEnabled accept_btn (Ok true);
      EvInvoke accept_btn]).
Proof.
  apply (proj1 (cascade_interrupt_leaves_at_once
                  (B := scripted interrupt_script)
                  accept_btn "Accept" 0 0%nat 1%nat 2%nat 3%nat "Accept"
                  eq_refl eq_refl eq_refl eq_refl) 4%nat).
  reflexivity.
Defined.

Lemma cascade_success_means_activation_witness :
  In (EvExists accept_btn (Ok true))
     (events (click_button (B := scripted legacy_script) accept_btn "Accept" 0 0%nat))
  /\ In (EvIsEnabled accept_btn (Ok true))
        (events (click_button (B := scripted legacy_script)
                   accept_btn "Accept" 0 0%nat))
  /\ is_activation
       (last (strategy_calls
                (events (click_button (B := scripted legacy_script)
                           accept_btn "Accept" 0 0%nat)))
          EvGetChildren) = true.
Proof.
  apply (cascade_success_means_activation (B := scripted legacy_script)
           accept_btn "Accept" 0 0%nat).
  reflexivity.
Defined.

(** No strategy works on the control. *)
Lemma cascade_all_strategies_fail_witness :
  click_button (B := scripted hopeless_script) accept_btn "Accept" 0 0%nat
  = (Ok false, 6%nat,
     [EvExists accept_btn (Ok true); EvName accept_btn;
      EvPrint "Found Accept button: Accept"; EvIsEnabled accept_btn (Ok true);
      EvInvoke accept_btn; EvPrint "Invoke failed: no InvokePattern";
      EvGetLegacyIAccessiblePattern accept_btn;
      EvClick accept_btn;
      EvPrint "Physical click failed: no clickable point"])
  /\ count is_Sleep
       (events (click_button (B := scripted hopeless_script)
                  accept_btn "Accept" 0 0%nat)) = 0%nat.
Proof.
  split; [reflexivity|].
  apply (cascade_all_strategies_fail (B := scripted hopeless_script)
           accept_btn "Accept" 0 0%nat 1%nat 2%nat 3%nat 4%nat 5%nat 6%nat
           "Accept" "no InvokePattern" "no clickable point"
           [EvGetLegacyIAccessiblePattern accept_btn]).
  - reflexivity.
  - reflexivity.
  - reflexivity.
  - reflexivity.
  - reflexivity.
  - reflexivity.
  - apply (legacy_pattern_missing (B := scripted hopeless_script)). reflexivity.
  - reflexivity.
  - reflexivity.
Defined.

(** Two windows with an Accept button each: only the first is handled in
    the cycle. *)
Lemma first_match_wins_witness :
  for_windows (B := scripted two_windows_script) default_config [win1; win2] 1%nat
  = (Ok Break, 13%nat,
     events (window_body (B := scripted two_windows_script) default_config win1 1%nat))
  /\ count is_search
       (events (for_windows (B := scripted two_windows_script)
                  default_config [win1; win2] 1%nat)) = 2%nat.
Proof.
  split; [|reflexivity].
  apply (first_match_wins (B := scripted two_windows_script)
           default_config [] [win2] win1 1%nat 1%nat 13%nat []
           (events (window_body (B := scripted two_windows_script)
                      default_config win1 1%nat)));
    reflexivity.
Defined.

Lemma one_enumeration_per_cycle_witness :
  count is_GetChildren
    (events (watch_loop (B := scripted base_script) default_config 2 0%nat)) = 2%nat.
Proof.
  apply (proj2 (one_enumeration_per_cycle (B := scripted base_script)
                  default_config 2 0%nat)).
  reflexivity.
Defined.

(** The user interrupts during the first [Invoke] of the first of three
    iterations. *)
Lemma interrupt_stops_the_loop_witness :
  cycle (B := scripted interrupt_script) default_config 0%nat
  = (Raise KeyboardInterrupt, 7%nat,
     [EvGetChildren;
      EvClassName win1 (Ok "Chrome_WidgetWin_1");
      EvButtonControl win1 15 "Accept.*";
      EvExists accept_btn (Ok true); EvName accept_btn;
      EvPrint "Found Accept button: Accept";
      EvIsEnabled accept_btn (Ok true);
      EvInvoke accept_btn])
  /\ main_loop (B := scripted interrupt_script) default_config 3 0%nat
     = (Ok tt, 7%nat,
        [EvGetChildren;
         EvClassName win1 (Ok "Chrome_WidgetWin_1");
         EvButtonControl win1 15 "Accept.*";
         EvExists accept_btn (Ok true); EvName accept_btn;
         EvPrint "Found Accept button: Accept";
         EvIsEnabled accept_btn (Ok true);
         EvInvoke accept_btn;
         EvPrint "Stopping UIA Service..."]).
Proof.
  pose proof (interrupt_stops_the_loop (B := scripted interrupt_script)
                default_config 0%nat 7%nat
                (events (cycle_body (B := scripted interrupt_script)
                           default_config 0%nat))
                eq_refl) as [Hc [_ Hm]].
  split; [exact Hc|exact (Hm 2%nat)].
Defined.

Lemma main_loop_returns_normally_witness :
  events (main_loop (B := scripted interrupt_script) default_config 3 0%nat)
  = events (watch_loop (B := scripted interrupt_script) default_config 3 0%nat)
      ++ [EvPrint "Stopping UIA Service..."]
  /\ main_loop (B := scripted base_script) default_config 1 0%nat
     = watch_loop (B := scripted base_script) default_config 1 0%nat.
Proof.
  split.
  - apply (proj1 (proj2 (main_loop_returns_normally (B := scripted interrupt_script)
                           default_config 3 0%nat))).
    reflexivity.
  - apply (proj2 (proj2 (main_loop_returns_normally (B := scripted base_script)
                           default_config 1 0%nat))).
    reflexivity.
Defined.

(** ** Names that cannot be printed, and the cost of a pass *)

Section Robustness.

Context {W : Type} {B : Backend W}.


Lemma count_cons (p : event -> bool) (ev : event) (t : trace) :
  count p (ev :: t) = ((if p ev then 1 else 0) + count p t)%nat.
Proof. unfold count. cbn. destruct (p ev); reflexivity. Qed.

Ltac budget :=
  cbn [events snd app];
  repeat first [rewrite count_cons | rewrite count_app];
  repeat match goal with
         | H : count is_search _ = 0%nat |- _ => rewrite H; clear H
         end;
  cbn; lia.

(** One pass of the loop body costs at most two subtree searches, whatever
    the backend answers: one for the Accept pattern and, unless the pass
    ends before it, one for the Confirm pattern. *)
Theorem window_body_search_budget (args : Config) (window : Window) (w : W) :
  (count is_search (events (window_body args window w)) <= 2)%nat.
Proof.
  unfold window_body, ClassName, ButtonControl, Exists, sleep, emit, call, bind, ret.
  destruct (be_ClassName window w) as [[cls|e] w1]; [|budget].
  destruct (String.eqb cls "Chrome_WidgetWin_1"); [|budget].
  cbn [negb].
  destruct (be_ButtonControl window 15 (accept_pattern args) w1) as [[ab|e] w2];
    [|budget].
  pose proof (cascade_events_no_search _
                (click_button_events ab "Accept" (click_delay args) w2)) as Ha.
  destruct (click_button ab "Accept" (click_delay args) w2) as [[[[|]|e] w3] t3];
    cbn [events snd] in Ha; [| |budget].
  - destruct (be_ButtonControl window 15 (confirm_pattern args) w3)
      as [[cb|e] w4]; [|budget].
    destruct (be_Exists cb w4) as [[[|]|e] w5]; [|budget|budget].
    pose proof (cascade_events_no_search _
                  (click_button_events cb "Confirm" (click_delay args) w5)) as Hc.
    destruct (click_button cb "Confirm" (click_delay args) w5) as [[[b|e] w6] t6];
      cbn [events snd] in Hc; budget.
  - destruct (be_ButtonControl window 15 (confirm_pattern args) w3)
      as [[cb|e] w4]; [|budget].
    pose proof (cascade_events_no_search _
                  (click_button_events cb "Confirm" (click_delay args) w4)) as Hc.
    destruct (click_button cb "Confirm" (click_delay args) w4)
      as [[[[|]|e] w6] t6];
      cbn [events snd] in Hc; budget.
Qed.

End Robustness.

(** A negative [--delay]: it is not slept. *)
Lemma cascade_sleeps_positive_witness :
  events (click_button (B := scripted base_script) accept_btn "Accept" (-1 # 1) 0%nat)
  = [EvExists accept_btn (Ok true); EvName accept_btn;
     EvPrint "Found Accept button: Accept"; EvIsEnabled accept_btn (Ok true);
     EvInvoke accept_btn;
     EvPrint "Success: Accept button invoked via UIA Pattern!";
     EvSleep half_second]
  /\ forallb sleeps_half_second
       (events (click_button (B := scripted base_script)
                  accept_btn "Accept" (-1 # 1) 0%nat)) = true.
Proof.
  split; [reflexivity|].
  apply (proj2 (cascade_sleeps_positive (B := scripted base_script)
                  accept_btn "Accept" (-1 # 1) 0%nat)).
  reflexivity.
Defined.

(** ** A delay that time.sleep refuses, a failure that cannot be printed *)

Section RuntimeErrors.

Context {W : Type} {B : Backend W}.

Lemma click_button_refused_delay_events (button : Control) (button_type : string)
  (click_delay : Q) (w : W) :
  Qpositive click_delay = true ->
  Qle_bool be_sleep_limit click_delay = true ->
  forallb not_strategy_call (events (click_button button button_type click_delay w))
  = true.
Proof.
  intros Hp Hl. unfold_cascade. rewrite Hp, Hl.
  repeat (cbn -[Qpositive Qle_bool String.append]; case_call);
    cbn -[Qpositive Qle_bool String.append]; reflexivity.
Qed.

(** A pre-click delay that [time.sleep] refuses (a [--delay] at or above
    the limit of the runtime) disables the program: [click_button] raises
    [OverflowError] at the sleep, after its three reads and before any
    strategy, and over any number of iterations of the loop no strategy is
    ever called on any control. *)
Theorem refused_delay_never_clicks (args : Config) :
  Qpositive (click_delay args) = true ->
  Qle_bool be_sleep_limit (click_delay args) = true ->
  (forall (button : Control) (button_type : string) (w w1 w2 w3 : W)
          (name : string),
      be_Exists button w = (Ok true, w1) ->
      be_Name button w1 = (Ok name, w2) ->
      be_IsEnabled button w2 = (Ok true, w3) ->
      click_button button button_type (click_delay args) w
      = (Raise OverflowError, w3,
         entry_events button button_type name true
           ++ [EvSleep (click_delay args)]))
  /\ (forall (n : nat) (w : W),
         forallb not_strategy_call (events (watch_loop args n w)) = true).
Proof.
  intros Hp Hl. split.
  - intros button button_type w w1 w2 w3 name HE HN HI.
    unfold_cascade. rewrite HE. cbn -[Qpositive Qle_bool String.append].
    rewrite HN. unfold entry_events, found_line.
    destruct (be_printable name);
      cbn -[Qpositive Qle_bool String.append]; rewrite HI, Hp, Hl; reflexivity.
  - intros n w. apply watch_loop_forall; try reflexivity.
    intros c button_type w'.
    apply click_button_refused_delay_events; assumption.
Qed.

(** A strategy failure whose text cannot be printed ends the cascade: when
    [Invoke] raises an [Exception] and the print of "Invoke failed: ..."
    raises in the handler, [click_button] raises that second exception at
    once, with nothing printed for the failure and without trying the
    legacy default action or the click. *)
Theorem unprintable_failure_ends_the_cascade (button : Control)
  (button_type : string) (click_delay : Q) (w w1 w2 w3 w4 : W)
  (name msg : string) :
  be_Exists button w = (Ok true, w1) ->
  be_Name button w1 = (Ok name, w2) ->
  be_IsEnabled button w2 = (Ok true, w3) ->
  delay_accepted click_delay = true ->
  be_Invoke button w3 = (Raise (Exception msg), w4) ->
  be_error_printable msg = false ->
  click_button button button_type click_delay w
  = (Raise UnicodeEncodeError, w4,
     entry_events button button_type name true
       ++ delay_events click_delay ++ [EvInvoke button]).
Proof.
  intros HE HN HI Hd HV Hp.
  rewrite (click_button_enabled button button_type click_delay
             w w1 w2 w3 name HE HN HI Hd).
  unfold method1. unfold_calls. rewrite HV.
  cbn -[Qpositive Qle_bool String.append]. rewrite Hp.
  unfold prepend, entry_events, delay_events.
  destruct (Qpositive click_delay); reflexivity.
Qed.

End RuntimeErrors.

(** [--delay 10000000000]: the Accept button is found in every cycle and
    never clicked. *)
Lemma refused_delay_never_clicks_witness :
  click_button (B := scripted base_script) accept_btn "Accept" oversized_delay 0%nat
  = (Raise OverflowError, 3%nat,
     [EvExists accept_btn (Ok true); EvName accept_btn;
      EvPrint "Found Accept button: Accept"; EvIsEnabled accept_btn (Ok true);
      EvSleep oversized_delay])
  /\ cycle (B := scripted base_script) oversized_config 0%nat
     = (Ok tt, 6%nat,
        [EvGetChildren;
         EvClassName win1 (Ok "Chrome_WidgetWin_1");
         EvButtonControl win1 15 "Accept.*";
         EvExists accept_btn (Ok true); EvName accept_btn;
         EvPrint "Found Accept button: Accept"; EvIsEnabled accept_btn (Ok true);
         EvSleep oversized_delay;
         EvSleep half_second])
  /\ forallb not_strategy_call
       (events (watch_loop (B := scripted base_script) oversized_config 3 0%nat))
     = true.
Proof.
  pose proof (refused_delay_never_clicks (B := scripted base_script)
                oversized_config eq_refl eq_refl) as [Hrun Hloop].
  split; [|split].
  - exact (Hrun accept_btn "Accept" 0%nat 1%nat 2%nat 3%nat "Accept"
             eq_refl eq_refl eq_refl).
  - reflexivity.
  - exact (Hloop 3%nat 0%nat).
Defined.

(** [Invoke] fails with a text that the standard output cannot encode. *)
Lemma unprintable_failure_ends_the_cascade_witness :
  click_button
    (B := with_be_error_printable (scripted click_only_script) (fun _ => false))
    accept_btn "Accept" 0 0%nat
  = (Raise UnicodeEncodeError, 4%nat,
     [EvExists accept_btn (Ok true); EvName accept_btn;
      EvPrint "Found Accept button: Accept"; EvIsEnabled accept_btn (Ok true);
      EvInvoke accept_btn]).
Proof.
  apply (unprintable_failure_ends_the_cascade
           (B := with_be_error_printable (scripted click_only_script)
                   (fun _ => false))
           accept_btn "Accept" 0 0%nat 1%nat 2%nat 3%nat 4%nat
           "Accept" "no InvokePattern"); reflexivity.
Defined.
